(** * PS-to-Genesis export: token acquisition, data fetch, tabular sink

    A shallow embedding of [src/python/main.py]: the four functions
    [get_bearer_token], [fetch_api_data], [save_to_excel] and [main],
    written in a small state-and-exception monad, and the properties the
    specification states about them.

    Conventions of the embedding.
    - A parsed JSON body is a [json] value.  A Python [dict] is an
      association list in insertion order, looked up at its first binding.
    - f-strings are kept symbolic ([fstring]): a list of literal pieces and
      of formatted values, so that no rendering of Python's [str()] has to
      be reproduced.
    - What the program cannot decide by itself is read from a [World]: the
      environment variables, the answers of the HTTP endpoints, the content
      of the [.env] file as [configparser] sees it, and the outcome of the
      spreadsheet writer.
    - The library calls are modelled at their documented behaviour:
      [requests] (2.27 or later, where a body that is not JSON raises a
      [RequestException], and where a request that cannot be encoded as
      Latin-1 raises a [UnicodeEncodeError]), [configparser] of Python
      3.13 (unnamed section), and [pandas] for lists of mappings. *)

From Stdlib Require Import List String ZArith Lia Bool.
Import ListNotations.
Open Scope string_scope.
Open Scope Z_scope.

(* ===================================================================== *)
(** ** Python values *)
(* ===================================================================== *)

(** What [response.json()] can return. *)
#[warnings="-register-all"]
Inductive json : Type :=
| JNull
| JBool (b : bool)
| JInt (z : Z)
| JFloat (bits : Z)            (* the binary64 bit pattern *)
| JStr (s : string)
| JArr (items : list json)
| JObj (fields : list (string * json)).

Abbreviation dict := (list (string * json)).

(** [d.get(k)] on the bindings of a dict: [None] when the key is absent. *)
Fixpoint dict_get (k : string) (d : dict) : option json :=
  match d with
  | [] => None
  | (k', v) :: rest => if String.eqb k k' then Some v else dict_get k rest
  end.

Definition dict_keys (d : dict) : list string := map fst d.

(** Truth value of an environment variable: [None] and [''] are falsy. *)
Definition truthy (v : option string) : bool :=
  match v with
  | None => false
  | Some s => negb (String.eqb s "")
  end.

Definition getenv_value (v : option string) : string :=
  match v with Some s => s | None => "" end.

(** [s.encode('latin-1')] succeeds.  A string is the UTF-8 bytes of the
    Python text: a character up to U+00FF is one byte below 128, or the
    lead byte 194 or 195 with one continuation byte. *)
Fixpoint latin1 (s : string) : bool :=
  match s with
  | EmptyString => true
  | String c rest =>
      let n := Ascii.nat_of_ascii c in
      if (n <? 128)%nat then latin1 rest
      else if ((n =? 194) || (n =? 195))%nat then
        match rest with
        | String c' rest' =>
            let n' := Ascii.nat_of_ascii c' in
            (128 <=? n')%nat && (n' <? 192)%nat && latin1 rest'
        | EmptyString => false
        end
      else false
  end.

(** Names of the sections of a [ConfigParser(allow_unnamed_section=True)]. *)
Inductive section_name : Type :=
| UNNAMED_SECTION
| Named (s : string).

Definition section_name_eqb (a b : section_name) : bool :=
  match a, b with
  | UNNAMED_SECTION, UNNAMED_SECTION => true
  | Named x, Named y => String.eqb x y
  | _, _ => false
  end.

(** [isinstance(cat, str)]. *)
Definition isinstance_str (n : section_name) : bool :=
  match n with Named _ => true | UNNAMED_SECTION => false end.

(** Pieces of an f-string. *)
Inductive frag : Type :=
| Lit (s : string)
| FInt (z : Z)
| FVal (v : json)
| FName (n : section_name)
| FNames (l : list section_name).

Abbreviation fstring := (list frag).

(** The exceptions the program meets.  [SystemExit] derives from
    [BaseException] only; all others derive from [Exception]. *)
Inductive exn : Type :=
| SystemExit (code : Z)
| RequestException (msg : fstring)
| KeyError (key : string)
| AttributeError (msg : fstring)
| TypeError (msg : fstring)
| ValueError (msg : fstring)        (* with its subclass UnicodeEncodeError *)
| LibraryError (msg : fstring).

Definition is_Exception (e : exn) : bool :=
  match e with SystemExit _ => false | _ => true end.

Definition is_RequestException (e : exn) : bool :=
  match e with RequestException _ => true | _ => false end.

(** [str(e)], as it appears in [f"...{e}"]. *)
Definition str_exn (e : exn) : fstring :=
  match e with
  | SystemExit c => [FInt c]
  | RequestException m => m
  | KeyError k => [Lit "'"; Lit k; Lit "'"]
  | AttributeError m => m
  | TypeError m => m
  | ValueError m => m
  | LibraryError m => m
  end.

(* ===================================================================== *)
(** ** HTTP, configuration file and spreadsheet: the outside world *)
(* ===================================================================== *)

Inductive payload : Type :=
| FormData (fields : list (string * string))    (* [data=...] *)
| JsonBody (v : json).                          (* [json=...] *)

Record request : Type := mkRequest {
  req_url : string;
  req_headers : list (string * fstring);
  req_payload : payload;
  req_auth : option (string * string);          (* HTTPBasicAuth *)
  req_timeout : Z
}.

Record response : Type := mkResponse {
  status_code : Z;
  reason : string;
  text : string;
  resp_headers : list (string * string);
  resp_json : string + json      (* [inl msg]: the body is not JSON *)
}.

(** What a call of [requests.post] comes to.  [Unsendable] is the library
    giving up on a request it cannot encode: the credentials of
    [HTTPBasicAuth] and the header values are encoded as Latin-1, and a
    character outside Latin-1 raises a [UnicodeEncodeError], which is a
    [ValueError] and not a [RequestException]. *)
Inductive net_result : Type :=
| ConnFailed (msg : string)      (* ConnectionError, Timeout, ... *)
| Responded (r : response)
| Unsendable (msg : string).     (* UnicodeEncodeError *)

Record section : Type := mkSection {
  sec_name : section_name;
  sec_items : string + list (string * string)   (* [inl msg]: interpolation error *)
}.

(** Column labels and cells of a [DataFrame]; a missing value is [None]. *)
Inductive label : Type :=
| LStr (s : string)
| LInt (n : Z).

Record DataFrame : Type := mkFrame {
  columns : list label;
  rows : list (list (option json))
}.

(** Cells of a written sheet. *)
Inductive xcell : Type :=
| Blank
| Header (l : label)
| Index (n : Z)
| Value (v : json).

Abbreviation sheet := (list (list xcell)).

Record World : Type := mkWorld {
  CLIENT_ID : option string;
  CLIENT_SECRET : option string;
  AUTH_URL : option string;
  DATA_URL : option string;
  (** what a call of [requests.post] with this request comes to; the
      library answers [Unsendable] for a request it cannot encode *)
  http_post : request -> net_result;
  (** [ConfigParser(allow_unnamed_section=True)] then [config.read('.env')]:
      [inl msg] when the parser cannot be built (the keyword is unknown
      before Python 3.13) or the file does not parse, else the sections *)
  config_file : string + list section;
  (** [pd.DataFrame(records)] when some record is not a mapping *)
  pandas_irregular : list json -> string + DataFrame;
  (** the spreadsheet writer: [Some msg] when writing fails *)
  excel_write : string -> sheet -> option string
}.

(* ===================================================================== *)
(** ** The monad: observable state and exceptions *)
(* ===================================================================== *)

Record state : Type := mkState {
  stdout : list fstring;                 (* printed lines, oldest first *)
  sent : list request;                   (* calls of requests.post, oldest first *)
  files : list (string * sheet)          (* files written, newest first *)
}.

Definition initial : state := mkState [] [] [].

Inductive outcome (A : Type) : Type :=
| Ret (a : A)
| Raise (e : exn).
Arguments Ret {A} a.
Arguments Raise {A} e.

Definition M (A : Type) : Type := state -> outcome A * state.

Definition ret {A} (a : A) : M A := fun st => (Ret a, st).

Definition bind {A B} (m : M A) (k : A -> M B) : M B :=
  fun st =>
    match m st with
    | (Ret a, st') => k a st'
    | (Raise e, st') => (Raise e, st')
    end.

Definition raise {A} (e : exn) : M A := fun st => (Raise e, st).

(** [try: body  except <class> as e: handler e]. *)
Definition try_except {A} (body : M A) (catches : exn -> bool)
    (handler : exn -> M A) : M A :=
  fun st =>
    match body st with
    | (Ret a, st') => (Ret a, st')
    | (Raise e, st') => if catches e then handler e st' else (Raise e, st')
    end.

Declare Scope py_scope.
Delimit Scope py_scope with py.
Notation "x <- m ;; k" := (bind m (fun x => k))
  (at level 61, m at next level, right associativity) : py_scope.
Notation "m ;; k" := (bind m (fun _ => k))
  (at level 61, right associativity) : py_scope.
Open Scope py_scope.

Definition print (line : fstring) : M unit :=
  fun st => (Ret tt, mkState (stdout st ++ [line]) (sent st) (files st)).

Definition sys_exit {A} (code : Z) : M A := raise (SystemExit code).

Fixpoint for_each {A} (l : list A) (body : A -> M unit) : M unit :=
  match l with
  | [] => ret tt
  | x :: rest => body x ;; for_each rest body
  end.

(** [enumerate(l, start)]. *)
Fixpoint enumerate {A} (l : list A) (start : Z) : list (Z * A) :=
  match l with
  | [] => []
  | x :: rest => (start, x) :: enumerate rest (start + 1)
  end.

(** The exit status of the interpreter once [main()] is over: 0 on a normal
    return, the code of [SystemExit], 1 after any other uncaught exception. *)
Definition exit_status (o : outcome unit) : Z :=
  match o with
  | Ret _ => 0
  | Raise (SystemExit c) => c
  | Raise _ => 1
  end.

(* ===================================================================== *)
(** ** Library calls *)
(* ===================================================================== *)

(** [requests.post(...)]: the call is recorded, then the world answers: a
    [RequestException], a response, or a [UnicodeEncodeError]. *)
Definition requests_post (W : World) (rq : request) : M response :=
  fun st =>
    let st' := mkState (stdout st) (sent st ++ [rq]) (files st) in
    match http_post W rq with
    | ConnFailed msg => (Raise (RequestException [Lit msg]), st')
    | Responded r => (Ret r, st')
    | Unsendable msg => (Raise (ValueError [Lit msg]), st')
    end.

(** The message of the [HTTPError] of [raise_for_status]. *)
Definition http_error_msg (kind : string) (url : string) (r : response) : fstring :=
  [FInt (status_code r); Lit " "; Lit kind; Lit " Error: "; Lit (reason r);
   Lit " for url: "; Lit url].

(** [response.raise_for_status()]: raises for 4xx and 5xx only. *)
Definition raise_for_status (url : string) (r : response) : M unit :=
  if (400 <=? status_code r) && (status_code r <? 500) then
    raise (RequestException (http_error_msg "Client" url r))
  else if (500 <=? status_code r) && (status_code r <? 600) then
    raise (RequestException (http_error_msg "Server" url r))
  else ret tt.

(** [response.json()]. *)
Definition response_json (r : response) : M json :=
  match resp_json r with
  | inl msg => raise (RequestException [Lit msg])
  | inr v => ret v
  end.

(** [v.get(k)]: only a dict has the method. *)
Definition method_get (v : json) (k : string) : M json :=
  match v with
  | JObj d => ret (match dict_get k d with Some x => x | None => JNull end)
  | _ => raise (AttributeError [Lit "object has no attribute 'get'"])
  end.

(** [v.items()]. *)
Definition method_items (v : json) : M (list (string * json)) :=
  match v with
  | JObj d => ret d
  | _ => raise (AttributeError [Lit "object has no attribute 'items'"])
  end.

(** [v[k]] where [v] is known to be a dict or raises otherwise. *)
Definition subscript (v : json) (k : string) : M json :=
  match v with
  | JObj d =>
      match dict_get k d with
      | Some x => ret x
      | None => raise (KeyError k)
      end
  | _ => raise (TypeError [Lit "indices must be integers or slices, not str"])
  end.

(** [iter(v)] succeeds on lists, dicts and strings. *)
Definition iterable (v : json) : bool :=
  match v with JArr _ | JObj _ | JStr _ => true | _ => false end.

(** [for sub_value in v: ...] with an empty body: only [iter(v)] matters. *)
Definition iterate (v : json) : M unit :=
  if iterable v then ret tt
  else raise (TypeError [Lit "object is not iterable"]).

(** [config.read(filenames='.env')] followed by [config.sections()]. *)
Definition config_read (W : World) : M (list section) :=
  match config_file W with
  | inl msg => raise (LibraryError [Lit msg])
  | inr secs => ret secs
  end.

Definition default_section : section_name := Named "DEFAULT".

(** [config[cat].items()]. *)
Fixpoint config_items (config : list section) (cat : section_name)
    : M (list (string * string)) :=
  match config with
  | [] => raise (KeyError "section")
  | s :: rest =>
      if section_name_eqb (sec_name s) cat then
        match sec_items s with
        | inl msg => raise (LibraryError [Lit msg])
        | inr kv => ret kv
        end
      else config_items rest cat
  end.

(** *** pandas *)

(** The records as dicts, when every one of them is a dict. *)
Fixpoint as_dicts (records : list json) : option (list dict) :=
  match records with
  | [] => Some []
  | JObj d :: rest =>
      match as_dicts rest with
      | Some ds => Some (d :: ds)
      | None => None
      end
  | _ :: _ => None
  end.

Definition mem_string (k : string) (l : list string) : bool :=
  existsb (String.eqb k) l.

(** Keys not seen so far are appended, in order. *)
Definition add_keys (seen : list string) (ks : list string) : list string :=
  fold_left (fun acc k => if mem_string k acc then acc else (acc ++ [k])%list) ks seen.

(** The union of the keys of the records, in order of first appearance. *)
Definition union_keys (ds : list dict) : list string :=
  fold_left (fun acc d => add_keys acc (dict_keys d)) ds [].

Definition row_of (cols : list string) (d : dict) : list (option json) :=
  map (fun c => dict_get c d) cols.

Definition frame_of_dicts (ds : list dict) : DataFrame :=
  let cols := union_keys ds in
  mkFrame (map LStr cols) (map (row_of cols) ds).

(** [pd.DataFrame(records)]. *)
Definition pd_DataFrame (W : World) (records : list json) : M DataFrame :=
  match as_dicts records with
  | Some ds => ret (frame_of_dicts ds)
  | None =>
      match pandas_irregular W records with
      | inl msg => raise (LibraryError [Lit msg])
      | inr df => ret df
      end
  end.

Definition xcell_of (c : option json) : xcell :=
  match c with Some v => Value v | None => Blank end.

(** The sheet [to_excel] writes: one header row, then one row per frame
    row; with [index=True] a first column carries the row numbers. *)
Definition sheet_of (index : bool) (df : DataFrame) : sheet :=
  let header := map Header (columns df) in
  let body := map (map xcell_of) (rows df) in
  if index then
    (Blank :: header) :: map (fun '(i, r) => Index i :: r) (enumerate body 0)
  else header :: body.

(** [df.to_excel(filename, index=index)]. *)
Definition to_excel (W : World) (df : DataFrame) (filename : string)
    (index : bool) : M unit :=
  fun st =>
    let sh := sheet_of index df in
    match excel_write W filename sh with
    | Some msg => (Raise (LibraryError [Lit msg]), st)
    | None => (Ret tt, mkState (stdout st) (sent st) ((filename, sh) :: files st))
    end.

(* ===================================================================== *)
(** ** The program *)
(* ===================================================================== *)

(** The POST of [get_bearer_token]. *)
Definition auth_request (client_id client_secret auth_url : string) : request :=
  mkRequest auth_url
    [("Content-Type", [Lit "application/x-www-form-urlencoded"])]
    (FormData [("grant_type", "client_credentials")])
    (Some (client_id, client_secret))
    10.

Definition get_bearer_token (W : World) (client_id client_secret auth_url : string)
    : M json :=
  try_except
    (response <- requests_post W (auth_request client_id client_secret auth_url) ;;
     raise_for_status auth_url response ;;
     token_data <- response_json response ;;
     method_get token_data "access_token")
    is_RequestException
    (fun e =>
       print (Lit "Error obtaining token: " :: str_exn e) ;;
       sys_exit 1).

(** The POST of [fetch_api_data]. *)
Definition data_request (data_url : string) (token : json) : request :=
  mkRequest data_url
    [("Authorization", [Lit "Bearer "; FVal token]);
     ("Content-Type", [Lit "application/json"]);
     ("Accept", [Lit "application/json"])]
    (JsonBody (JObj [("terms_start", JStr "21"); ("terms_end", JStr "36")]))
    None
    10.

Definition fetch_api_data (W : World) (data_url : string) (token : json) : M json :=
  try_except
    (response <- requests_post W (data_request data_url token) ;;
     (if negb (status_code response =? 200) then
        print [Lit "Error: Received status code "; FInt (status_code response)] ;;
        print [Lit "Response: "; Lit (text response)] ;;
        for_each (resp_headers response)
          (fun '(key, value) => print [Lit key; Lit ": "; Lit value]) ;;
        raise_for_status data_url response
      else ret tt) ;;
     response_json response)
    is_RequestException
    (fun e =>
       print (Lit "Error fetching data: " :: str_exn e) ;;
       sys_exit 1).

(** The record list [save_to_excel] settles on (lines 101 to 111):
    [records] starts empty; a list is taken as it is; a dict gives the list
    under ['data'], else the list under ['results'], else is wrapped. *)
Definition resolve_records (data : json) : list json :=
  match data with
  | JArr items => items
  | JObj d =>
      match dict_get "data" d with
      | Some (JArr items) => items
      | _ =>
          match dict_get "results" d with
          | Some (JArr items) => items
          | _ => [data]
          end
      end
  | _ => []
  end.

Definition is_empty {A} (l : list A) : bool :=
  match l with [] => true | _ :: _ => false end.

Definition save_to_excel (W : World) (data : json) (filename : string) : M unit :=
  try_except
    (let records := resolve_records data in
     if is_empty records then
       print [Lit "No records found to save."]
     else
       df <- pd_DataFrame W records ;;
       to_excel W df filename false ;;
       print [Lit "Success! Data saved to "; Lit filename])
    is_Exception
    (fun e => print (Lit "Error saving to Excel: " :: str_exn e)).

Definition default_filename : string := "api_data.xlsx".

(** The body of the loop over the sections of the configuration file. *)
Definition category_step (config : list section) (len_categories : Z)
    (entry : Z * section_name) : M unit :=
  let '(number, cat) := entry in
  print [Lit "2."; FInt number; Lit "/"; FInt len_categories;
         Lit " Fetching data for "; FName cat; Lit "..."] ;;
  if section_name_eqb cat default_section then ret tt
  else
    items <- config_items config cat ;;
    for_each items
      (fun '(key, val) =>
         print [Lit "Installing "; Lit key; Lit " "; Lit val;
                Lit " for category "; FName cat; Lit "..."]) ;;
    if negb (isinstance_str cat) then
      print [Lit "Warning: Category 'type(cat)=<class 'configparser._UnnamedSection'>' is not a string. Skipping."]
    else ret tt.

(** Lines 156 to 171: fetch, pick the key ['record'], save. *)
Definition fetch_and_save (W : World) (token : json) : M unit :=
  api_data <- fetch_api_data W (getenv_value (DATA_URL W)) token ;;
  print [Lit "   Data received."] ;;
  items <- method_items api_data ;;
  for_each items
    (fun '(key, value) => if String.eqb key "record" then iterate value else ret tt) ;;
  my_records <- subscript api_data "record" ;;
  print [Lit "3. Saving to Excel..."] ;;
  save_to_excel W my_records default_filename.

Definition main (W : World) : M unit :=
  (if negb (forallb truthy [CLIENT_ID W; CLIENT_SECRET W; AUTH_URL W; DATA_URL W]) then
     print [Lit "Error: Missing environment variables. Please check your .env file."] ;;
     sys_exit 1
   else ret tt) ;;
  print [Lit "1. Authenticating..."] ;;
  token <- get_bearer_token W (getenv_value (CLIENT_ID W))
             (getenv_value (CLIENT_SECRET W)) (getenv_value (AUTH_URL W)) ;;
  print [Lit "   Token received."] ;;
  print [Lit "2. Fetching data..."] ;;
  config <- config_read W ;;
  print [Lit "   Configuration loaded."] ;;
  let categories := map sec_name config in
  print [Lit "   Sections in config: "; FNames categories] ;;
  let len_categories := Z.of_nat (List.length categories) - 1 in
  if 0 <? len_categories then
    for_each (enumerate categories 0) (category_step config len_categories)
  else
    fetch_and_save W token.

(** One run of the script. *)
Definition run (W : World) : outcome unit * state := main W initial.

Definition exit_code (W : World) : Z := exit_status (fst (run W)).
Definition final (W : World) : state := snd (run W).

(* ===================================================================== *)
(** ** The shape-resolution policy in the words of the specification *)
(* ===================================================================== *)

(** The specification describes shape resolution as an ordered list of
    shape matchers, each a predicate with an extractor; the first matcher
    whose predicate holds decides. *)
Module Policy.

Definition matcher : Type := (json -> bool) * (json -> list json).

Fixpoint first_match (ms : list matcher) (v : json) : option (list json) :=
  match ms with
  | [] => None
  | (applies, extract) :: rest =>
      if applies v then Some (extract v) else first_match rest v
  end.

Definition is_sequence (v : json) : bool :=
  match v with JArr _ => true | _ => false end.

Definition is_mapping (v : json) : bool :=
  match v with JObj _ => true | _ => false end.

Definition elements (v : json) : list json :=
  match v with JArr items => items | _ => [] end.

Definition value_at (key : string) (v : json) : option json :=
  match v with JObj d => dict_get key d | _ => None end.

(** "a mapping with key [key] whose value is a sequence" *)
Definition has_sequence_at (key : string) (v : json) : bool :=
  match value_at key v with Some x => is_sequence x | None => false end.

Definition sequence_at (key : string) (v : json) : list json :=
  match value_at key v with Some x => elements x | None => [] end.

Definition wrap (v : json) : list json := [v].

Definition rule_sequence : matcher := (is_sequence, elements).
Definition rule_data : matcher := (has_sequence_at "data", sequence_at "data").
Definition rule_results : matcher :=
  (has_sequence_at "results", sequence_at "results").

(** Rules 1 to 4 as worded: the fourth is an unconditional "else". *)
Definition worded : list matcher :=
  [rule_sequence; rule_data; rule_results; (fun _ => true, wrap)].

(** Rules 1 to 4 with the fourth restricted to mappings. *)
Definition guarded : list matcher :=
  [rule_sequence; rule_data; rule_results; (is_mapping, wrap)].

Definition resolve (ms : list matcher) (v : json) : list json :=
  match first_match ms v with Some l => l | None => [] end.

End Policy.

(* ===================================================================== *)
(** ** Sample worlds *)
(* ===================================================================== *)

Module Sample.

Definition quote : string := String (Ascii.ascii_of_nat 34) EmptyString.
Definition quoted (s : string) : string := quote ++ s ++ quote.

(** A [.env] file of four [KEY=value] lines: one unnamed section. *)
Definition env_file : list section :=
  [mkSection UNNAMED_SECTION
     (inr [("client_id", "ps-client"); ("client_secret", "s3cret");
           ("auth_url", "https://ps.example/oauth/token");
           ("data_url", "https://ps.example/export")])].

Definition answer (status : Z) (why : string) (raw : string) (body : json) : response :=
  mkResponse status why raw [("Content-Type", "application/json")] (inr body).

(** A world in which the auth POST (the one with Basic Auth) is answered
    by [auth] and the data POST by [data]; [cannot_write] is the answer
    of the spreadsheet writer. *)
Definition world (auth data : net_result) (cannot_write : option string) : World :=
  mkWorld (Some "ps-client") (Some "s3cret")
    (Some "https://ps.example/oauth/token") (Some "https://ps.example/export")
    (fun rq => match req_auth rq with Some _ => auth | None => data end)
    (inr env_file)
    (fun _ => inl "DataFrame constructor not properly called!")
    (fun _ _ => cannot_write).

Definition token_T : json := JObj [("access_token", JStr "T")].
Definition token_T_raw : string :=
  "{" ++ quoted "access_token" ++ ":" ++ quoted "T" ++ "}".

Definition auth_200 : net_result := Responded (answer 200 "OK" token_T_raw token_T).
Definition auth_300 : net_result :=
  Responded (answer 300 "Multiple Choices" token_T_raw token_T).
Definition auth_401 : net_result :=
  Responded (mkResponse 401 "Unauthorized" "" [] (inl "Expecting value: line 1 column 1 (char 0)")).

(** [{"results":[]}] *)
Definition results_empty : json := JObj [("results", JArr [])].
Definition results_empty_raw : string := "{" ++ quoted "results" ++ ":[]}".

(** [{"results":[{"x":1}]}] *)
Definition results_x1 : json := JObj [("results", JArr [JObj [("x", JInt 1)]])].

(** [{"record":[]}] *)
Definition record_empty : json := JObj [("record", JArr [])].
Definition record_empty_raw : string := "{" ++ quoted "record" ++ ":[]}".

(** [{"record":[{"a":1},{"a":2,"b":3}]}] *)
Definition record_ab : json :=
  JObj [("record", JArr [JObj [("a", JInt 1)];
                         JObj [("a", JInt 2); ("b", JInt 3)]])].
Definition record_ab_raw : string :=
  "{" ++ quoted "record" ++ ":[{" ++ quoted "a" ++ ":1},{" ++ quoted "a"
  ++ ":2," ++ quoted "b" ++ ":3}]}".

(** [{"record":[{"a":1}]}] *)
Definition record_a1 : json := JObj [("record", JArr [JObj [("a", JInt 1)]])].
Definition record_a1_raw : string :=
  "{" ++ quoted "record" ++ ":[{" ++ quoted "a" ++ ":1}]}".

Definition data_200 (raw : string) (body : json) : net_result :=
  Responded (answer 200 "OK" raw body).

Definition data_201 (raw : string) (body : json) : net_result :=
  Responded (answer 201 "Created" raw body).

(** Credentials with an empty client secret. *)
Definition no_secret : World :=
  mkWorld (Some "ps-client") (Some "")
    (Some "https://ps.example/oauth/token") (Some "https://ps.example/export")
    (fun _ => ConnFailed "unreachable")
    (inr env_file)
    (fun _ => inl "DataFrame constructor not properly called!")
    (fun _ _ => None).

(** The auth endpoint answers 401. *)
Definition unauthorized : World :=
  world auth_401 (data_200 record_empty_raw record_empty) None.

(** The auth endpoint answers 300 with a token in the body. *)
Definition multiple_choices : World :=
  world auth_300 (data_200 record_empty_raw record_empty) None.

(** Both endpoints answer 200; the data body is [{"record":[]}]. *)
Definition granted : World :=
  world auth_200 (data_200 record_empty_raw record_empty) None.

(** The data body is [{"results":[]}]: no key ["record"]. *)
Definition keyless : World :=
  world auth_200 (data_200 results_empty_raw results_empty) None.

(** The data body is [{"record":[{"a":1},{"a":2,"b":3}]}]. *)
Definition two_records : World :=
  world auth_200 (data_200 record_ab_raw record_ab) None.

(** The data endpoint answers 201 Created with [{"record":[{"a":1}]}]. *)
Definition created : World :=
  world auth_200 (data_201 record_a1_raw record_a1) None.

(** The spreadsheet cannot be written. *)
Definition disk_full : World :=
  world auth_200 (data_200 record_a1_raw record_a1) (Some "No space left on device").

(** The sheet for the records [{"a":1}] and [{"a":2,"b":3}]. *)
Definition ab_sheet : list (list xcell) :=
  [[Header (LStr "a"); Header (LStr "b")];
   [Value (JInt 1); Blank];
   [Value (JInt 2); Value (JInt 3)]].

(** The auth endpoint answers 200 with the JSON array [[]]. *)
Definition token_array : World :=
  world (Responded (answer 200 "OK" "[]" (JArr [])))
    (data_200 record_empty_raw record_empty) None.

(** The auth endpoint answers 200 with a page that is not JSON. *)
Definition token_page : World :=
  world (Responded (mkResponse 200 "OK" "<html></html>" []
                      (inl "Expecting value: line 1 column 1 (char 0)")))
    (data_200 record_empty_raw record_empty) None.

(** The data POST times out. *)
Definition data_timeout : World :=
  world auth_200 (ConnFailed "Read timed out. (read timeout=10)") None.

(** The data endpoint answers 200 with a page that is not JSON. *)
Definition data_page : response :=
  mkResponse 200 "OK" "<html></html>" []
    (inl "Expecting value: line 1 column 1 (char 0)").

Definition data_not_json : World := world auth_200 (Responded data_page) None.

(** The data endpoint answers 503. *)
Definition unavailable : response :=
  mkResponse 503 "Service Unavailable" "try later" [("Retry-After", "120")]
    (inl "Expecting value: line 1 column 1 (char 0)").

Definition data_503 : World := world auth_200 (Responded unavailable) None.

(** The data body is the array [[{"a":1}]]. *)
Definition top_level_array : World :=
  world auth_200
    (data_200 ("[{" ++ quoted "a" ++ ":1}]") (JArr [JObj [("a", JInt 1)]])) None.

(** The data body is [{"record":null}]. *)
Definition record_null : World :=
  world auth_200
    (data_200 ("{" ++ quoted "record" ++ ":null}") (JObj [("record", JNull)])) None.

(** A configuration file with two named sections. *)
Definition two_sections : list section :=
  [mkSection (Named "CURRICULUM_EXPORT") (inr [("terms_start", "21")]);
   mkSection (Named "STAFF_EXPORT") (inr [("terms_start", "1")])].

Definition sectioned : World :=
  mkWorld (Some "ps-client") (Some "s3cret")
    (Some "https://ps.example/oauth/token") (Some "https://ps.example/export")
    (fun rq => match req_auth rq with
               | Some _ => auth_200
               | None => data_200 record_ab_raw record_ab
               end)
    (inr two_sections)
    (fun _ => inl "DataFrame constructor not properly called!")
    (fun _ _ => None).

(** What the library does with Basic Auth credentials it cannot encode. *)
Definition cannot_encode : string := "'latin-1' codec can't encode character".

(** A client secret with a character outside Latin-1: the library refuses
    the auth request. *)
Definition euro_secret : World :=
  mkWorld (Some "ps-client") (Some "s3cr€t")
    (Some "https://ps.example/oauth/token") (Some "https://ps.example/export")
    (fun rq => match req_auth rq with
               | Some (id, secret) =>
                   if latin1 id && latin1 secret then auth_200
                   else Unsendable cannot_encode
               | None => data_200 record_empty_raw record_empty
               end)
    (inr env_file)
    (fun _ => inl "DataFrame constructor not properly called!")
    (fun _ _ => None).

(** The auth endpoint grants a token with a character outside Latin-1: the
    library refuses the data request that carries it. *)
Definition euro_token : World :=
  mkWorld (Some "ps-client") (Some "s3cret")
    (Some "https://ps.example/oauth/token") (Some "https://ps.example/export")
    (fun rq => match req_auth rq with
               | Some _ =>
                   Responded (answer 200 "OK" "" (JObj [("access_token", JStr "t€ken")]))
               | None =>
                   if latin1 "t€ken" then data_200 record_empty_raw record_empty
                   else Unsendable cannot_encode
               end)
    (inr env_file)
    (fun _ => inl "DataFrame constructor not properly called!")
    (fun _ _ => None).

End Sample.

(* ===================================================================== *)
(** ** Vocabulary of the statements *)
(* ===================================================================== *)

(** A setting is absent or empty. *)
Definition missing (v : option string) : Prop := v = None \/ v = Some "".

(** The four required settings are all present and non-empty. *)
Definition configured (W : World) : Prop :=
  forallb truthy [CLIENT_ID W; CLIENT_SECRET W; AUTH_URL W; DATA_URL W] = true.

(** Statuses on which [raise_for_status] raises. *)
Definition http_error (status : Z) : Prop := 400 <= status < 600.

Definition is_2xx (status : Z) : Prop := 200 <= status < 300.

(** The two POSTs [main] can issue. *)
Definition auth_post (W : World) : request :=
  auth_request (getenv_value (CLIENT_ID W)) (getenv_value (CLIENT_SECRET W))
    (getenv_value (AUTH_URL W)).

Definition data_post (W : World) (token : json) : request :=
  data_request (getenv_value (DATA_URL W)) token.

Definition access_token (d : dict) : json :=
  match dict_get "access_token" d with Some v => v | None => JNull end.

(** The auth endpoint answers with a JSON object and no error status;
    [token] is what [get_bearer_token] then returns. *)
Definition token_granted (W : World) (token : json) : Prop :=
  exists r d,
    http_post W (auth_post W) = Responded r /\
    ~ http_error (status_code r) /\
    resp_json r = inr (JObj d) /\
    token = access_token d.

(** The configuration file parses and has at most one section, so [main]
    takes the fetch-and-save branch. *)
Definition single_section (W : World) (secs : list section) : Prop :=
  config_file W = inr secs /\ (List.length secs <= 1)%nat.

(** The data endpoint answers [token]'s POST with status 200 and the
    parsed body [body]. *)
Definition fetched_200 (W : World) (token body : json) : Prop :=
  exists r,
    http_post W (data_post W token) = Responded r /\
    status_code r = 200 /\
    resp_json r = inr body.

(** The data endpoint answers with a body [fetch_api_data] returns. *)
Definition fetched (W : World) (token body : json) : Prop :=
  exists r,
    http_post W (data_post W token) = Responded r /\
    (status_code r = 200 \/ ~ http_error (status_code r)) /\
    resp_json r = inr body.

(** What has been printed and sent when the fetch starts. *)
Definition narrated (secs : list section) : list fstring :=
  [[Lit "1. Authenticating..."]; [Lit "   Token received."];
   [Lit "2. Fetching data..."]; [Lit "   Configuration loaded."];
   [Lit "   Sections in config: "; FNames (map sec_name secs)]].

Definition before_fetch (W : World) (secs : list section) : state :=
  mkState (narrated secs) [auth_post W] [].

(** Lines a non-200 answer makes [fetch_api_data] print. *)
Definition diagnostics (r : response) : list fstring :=
  [Lit "Error: Received status code "; FInt (status_code r)]
  :: [Lit "Response: "; Lit (text r)]
  :: map (fun '(key, value) => [Lit key; Lit ": "; Lit value]) (resp_headers r).

(** The same world with another pandas and another spreadsheet writer. *)
Definition with_sink (W : World) (irregular : list json -> string + DataFrame)
    (writer : string -> sheet -> option string) : World :=
  mkWorld (CLIENT_ID W) (CLIENT_SECRET W) (AUTH_URL W) (DATA_URL W)
    (http_post W) (config_file W) irregular writer.

(** One printed line per response header. *)
Definition header_line (h : string * string) : fstring :=
  let '(key, value) := h in [Lit key; Lit ": "; Lit value].

(** What follows the fetch in [fetch_and_save]: the loop over the items,
    the subscript ['record'] and the call of [save_to_excel]. *)
Definition locate_and_save (W : World) (api_data : json) : M unit :=
  items <- method_items api_data ;;
  for_each items
    (fun '(key, value) => if String.eqb key "record" then iterate value else ret tt) ;;
  my_records <- subscript api_data "record" ;;
  print [Lit "3. Saving to Excel..."] ;;
  save_to_excel W my_records default_filename.

(** The state once "Data received." has been printed. *)
Definition received (W : World) (secs : list section) (token : json)
    (r : response) : state :=
  mkState
    (narrated secs ++ (if status_code r =? 200 then [] else diagnostics r)
       ++ [[Lit "   Data received."]])
    [auth_post W; data_post W token] [].

Definition saving (st : state) : state :=
  mkState (stdout st ++ [[Lit "3. Saving to Excel..."]]) (sent st) (files st).

(** What [pd.DataFrame] and [to_excel] can do to a non-empty record list. *)
Inductive sink_result (W : World) (records : list json) (filename : string)
    : option string -> option sheet -> Prop :=
| frame_failed (msg : string) :
    as_dicts records = None ->
    pandas_irregular W records = inl msg ->
    sink_result W records filename (Some msg) None
| write_failed (df : DataFrame) (msg : string) :
    (forall st, pd_DataFrame W records st = (Ret df, st)) ->
    excel_write W filename (sheet_of false df) = Some msg ->
    sink_result W records filename (Some msg) None
| written (df : DataFrame) :
    (forall st, pd_DataFrame W records st = (Ret df, st)) ->
    excel_write W filename (sheet_of false df) = None ->
    sink_result W records filename None (Some (sheet_of false df)).

(** The state [save_to_excel] leaves after the sink has answered. *)
Definition after_sink (st : state) (filename : string)
    (failure : option string) (written : option sheet) : state :=
  match failure, written with
  | Some msg, _ =>
      mkState (stdout st ++ [[Lit "Error saving to Excel: "; Lit msg]])
        (sent st) (files st)
  | None, Some sh =>
      mkState (stdout st ++ [[Lit "Success! Data saved to "; Lit filename]])
        (sent st) ((filename, sh) :: files st)
  | None, None => st
  end.

(** [isinstance(v, dict)]. *)
Definition is_object (v : json) : bool :=
  match v with JObj _ => true | _ => false end.

(** The state after one more POST. *)
Definition posted (st : state) (rq : request) : state :=
  mkState (stdout st) (sent st ++ [rq]) (files st).

(** The state after one more printed line. *)
Definition printed (st : state) (line : fstring) : state :=
  mkState (stdout st ++ [line]) (sent st) (files st).

(** A computation that sends no request, writes no file and does not call
    [sys.exit]. *)
Definition quiet {A} (m : M A) : Prop :=
  forall st,
    sent (snd (m st)) = sent st /\
    files (snd (m st)) = files st /\
    (forall c, fst (m st) <> Raise (SystemExit c)).

(** Lines 159 to 170 of [main]: from the fetched value to the records
    handed to [save_to_excel]. *)
Definition locate (api_data : json) : M json :=
  items <- method_items api_data ;;
  for_each items
    (fun '(key, value) => if String.eqb key "record" then iterate value else ret tt) ;;
  my_records <- subscript api_data "record" ;;
  print [Lit "3. Saving to Excel..."] ;;
  ret my_records.

(** The items of a section can be read. *)
Definition readable (s : section) : Prop := exists kv, sec_items s = inr kv.

(** The values of a dict as the cells of a row. *)
Definition cells_of (d : dict) : list (option json) :=
  map (fun kv => Some (snd kv)) d.

(** What holds of every run: the only exit code of [sys.exit] is 1; the
    requests are none, the auth POST, or the auth POST followed by the data
    POST with the token the auth answer carried; the files are none, or the
    one spreadsheet, written by a run that returned normally. *)
Definition run_shape (W : World) (res : outcome unit * state) : Prop :=
  (forall c, fst res = Raise (SystemExit c) -> c = 1) /\
  (sent (snd res) = [] \/
   sent (snd res) = [auth_post W] \/
   exists r d,
     http_post W (auth_post W) = Responded r /\
     ~ http_error (status_code r) /\
     resp_json r = inr (JObj d) /\
     sent (snd res) = [auth_post W; data_post W (access_token d)]) /\
  (files (snd res) = [] \/
   exists sh,
     files (snd res) = [(default_filename, sh)] /\
     fst res = Ret tt /\
     excel_write W default_filename sh = None /\
     List.length (sent (snd res)) = 2%nat).

(** The sheet [sh] is the table of [records]: one header row of distinct
    column names, which are exactly the keys that occur in the records,
    then one row per record, in record order; under each column a row holds
    the record's value for that key, and a blank when the record lacks it.
    No row carries an index cell. *)
Definition tabulates (records : list json) (sh : sheet) : Prop :=
  exists cols,
    NoDup cols /\
    (forall c, In c cols <->
               exists d, In (JObj d) records /\ In c (dict_keys d)) /\
    List.length sh = S (List.length records) /\
    nth_error sh 0 = Some (map (fun c => Header (LStr c)) cols) /\
    (forall i d,
       nth_error records i = Some (JObj d) ->
       nth_error sh (S i) =
         Some (map (fun c => match dict_get c d with
                             | Some v => Value v
                             | None => Blank
                             end) cols)).

(* ===================================================================== *)
(** ** Basic facts *)
(* ===================================================================== *)

Lemma raise_for_status_passes (url : string) (r : response) (st : state) :
  ~ http_error (status_code r) ->
  raise_for_status url r st = (Ret tt, st).
Proof.
  unfold http_error, raise_for_status. intros H.
  destruct (400 <=? status_code r) eqn:E1; destruct (status_code r <? 500) eqn:E2;
    destruct (500 <=? status_code r) eqn:E3; destruct (status_code r <? 600) eqn:E4;
    simpl; try reflexivity; exfalso; lia.
Qed.

Lemma raise_for_status_raises (url : string) (r : response) :
  http_error (status_code r) ->
  exists kind, forall st,
    raise_for_status url r st =
      (Raise (RequestException (http_error_msg kind url r)), st).
Proof.
  unfold http_error, raise_for_status. intros H.
  destruct (400 <=? status_code r) eqn:E1; destruct (status_code r <? 500) eqn:E2;
    destruct (500 <=? status_code r) eqn:E3; destruct (status_code r <? 600) eqn:E4;
    simpl; try (exfalso; lia);
    first [ exists "Client"; reflexivity | exists "Server"; reflexivity ].
Qed.

Lemma is_2xx_no_error (status : Z) : is_2xx status -> ~ http_error status.
Proof. unfold is_2xx, http_error. lia. Qed.

(** [get_bearer_token] on an answer that carries a JSON object. *)
Lemma get_bearer_token_object (W : World) (id secret url : string)
    (r : response) (d : dict) (st : state) :
  http_post W (auth_request id secret url) = Responded r ->
  ~ http_error (status_code r) ->
  resp_json r = inr (JObj d) ->
  get_bearer_token W id secret url st =
    (Ret (access_token d),
     mkState (stdout st) (sent st ++ [auth_request id secret url]) (files st)).
Proof.
  intros Hpost Hstatus Hjson.
  unfold get_bearer_token, try_except, bind, requests_post.
  rewrite Hpost, (raise_for_status_passes _ _ _ Hstatus).
  unfold response_json. rewrite Hjson. reflexivity.
Qed.

(** [get_bearer_token] when the POST fails or the status is 4xx or 5xx. *)
Lemma get_bearer_token_fails (W : World) (id secret url : string) (st : state) :
  (exists msg, http_post W (auth_request id secret url) = ConnFailed msg) \/
  (exists r, http_post W (auth_request id secret url) = Responded r /\
             http_error (status_code r)) ->
  exists why,
    get_bearer_token W id secret url st =
      (Raise (SystemExit 1),
       mkState (stdout st ++ [Lit "Error obtaining token: " :: why])
         (sent st ++ [auth_request id secret url]) (files st)).
Proof.
  intros [[msg Hpost] | [r [Hpost Hstatus]]];
    unfold get_bearer_token, try_except, bind, requests_post; rewrite Hpost.
  - exists [Lit msg]. reflexivity.
  - destruct (raise_for_status_raises url r Hstatus) as [kind Hr].
    rewrite Hr. exists (http_error_msg kind url r). reflexivity.
Qed.

(** One statement of a sequence: expose the first [bind] and compute. *)
Ltac step := unfold bind at 1; simpl.

(** A configured run whose token is granted and whose configuration file
    has at most one section arrives at the fetch. *)
Lemma main_arrives_at_fetch (W : World) (token : json) (secs : list section) :
  configured W ->
  token_granted W token ->
  single_section W secs ->
  main W initial = fetch_and_save W token (before_fetch W secs).
Proof.
  intros Hcfg (r & d & Hpost & Hstatus & Hjson & ->) (Hfile & Hlen).
  unfold main, bind at 1. unfold configured in Hcfg. rewrite Hcfg. simpl.
  step. unfold bind at 1.
  rewrite (get_bearer_token_object W _ _ _ r d _ Hpost Hstatus Hjson). simpl.
  step. step.
  unfold bind at 1. unfold config_read. rewrite Hfile. simpl.
  step. step.
  rewrite length_map.
  replace (0 <? Z.of_nat (List.length secs) - 1) with false
    by (symmetry; apply Z.ltb_ge; lia).
  reflexivity.
Qed.

Lemma truthy_false_iff (v : option string) : truthy v = false <-> missing v.
Proof.
  unfold truthy, missing. destruct v as [s |].
  - destruct (String.eqb_spec s "") as [-> | Hne]; simpl; split; intros H;
      try reflexivity; try discriminate; auto.
    destruct H as [H | H]; [discriminate | congruence].
  - split; auto.
Qed.

(* ===================================================================== *)
(** ** Orchestration: configuration and authentication *)
(* ===================================================================== *)

(** C5.  When one of the four required settings (client id, client secret,
    auth URL, data URL) is absent or empty, the script prints the notice
    about missing environment variables and exits with status 1; no POST
    has been issued, neither to the auth endpoint nor to the data endpoint,
    and no file has been written. *)
Theorem missing_setting_exits_without_network (W : World) :
  missing (CLIENT_ID W) \/ missing (CLIENT_SECRET W) \/
  missing (AUTH_URL W) \/ missing (DATA_URL W) ->
  exit_code W = 1 /\ exit_code W <> 0 /\
  sent (final W) = [] /\ files (final W) = [] /\
  stdout (final W) =
    [[Lit "Error: Missing environment variables. Please check your .env file."]].
Proof.
  intros H.
  assert (Hall : forallb truthy
            [CLIENT_ID W; CLIENT_SECRET W; AUTH_URL W; DATA_URL W] = false).
  { simpl. rewrite <- !truthy_false_iff in H.
    destruct H as [H | [H | [H | H]]]; rewrite H;
      repeat rewrite andb_false_r; reflexivity. }
  unfold exit_code, final, run, main, bind at 1. rewrite Hall. simpl.
  repeat split; try reflexivity. discriminate.
Qed.

Lemma missing_setting_witness :
  missing (CLIENT_SECRET Sample.no_secret) /\
  exit_code Sample.no_secret = 1 /\ sent (final Sample.no_secret) = [].
Proof.
  assert (Hm : missing (CLIENT_SECRET Sample.no_secret)) by (right; reflexivity).
  split; [exact Hm |].
  destruct (missing_setting_exits_without_network Sample.no_secret
              (or_intror (or_introl Hm))) as (H1 & _ & H2 & _).
  split; assumption.
Defined.

Lemma auth_failure_run (W : World) :
  configured W ->
  (exists msg, http_post W (auth_post W) = ConnFailed msg) \/
  (exists r, http_post W (auth_post W) = Responded r /\
             http_error (status_code r)) ->
  exists why,
    run W =
      (Raise (SystemExit 1),
       mkState [[Lit "1. Authenticating..."]; Lit "Error obtaining token: " :: why]
         [auth_post W] []).
Proof.
  intros Hcfg Hfail.
  destruct (get_bearer_token_fails W _ _ _
              (mkState [[Lit "1. Authenticating..."]] [] []) Hfail) as [why Hrun].
  exists why.
  unfold run, main, bind at 1.
  unfold configured in Hcfg. rewrite Hcfg. simpl.
  step. unfold bind at 1.
  rewrite Hrun. reflexivity.
Qed.

(** C6, as amended.  When the auth POST ends in a network error or a
    timeout, or is answered with a 4xx or 5xx status, the script prints
    "Error obtaining token: ..." and exits with status 1; the auth POST is
    the only request issued: it is not retried and no data fetch follows. *)
Theorem auth_failure_exits_before_fetch (W : World) :
  configured W ->
  (exists msg, http_post W (auth_post W) = ConnFailed msg) \/
  (exists r, http_post W (auth_post W) = Responded r /\
             http_error (status_code r)) ->
  exit_code W = 1 /\
  sent (final W) = [auth_post W] /\
  files (final W) = [] /\
  exists why,
    stdout (final W) =
      [[Lit "1. Authenticating..."]; Lit "Error obtaining token: " :: why].
Proof.
  intros Hcfg Hfail.
  destruct (auth_failure_run W Hcfg Hfail) as [why Hrun].
  unfold exit_code, final. rewrite Hrun. simpl.
  split; [reflexivity | split; [reflexivity | split; [reflexivity |]]].
  exists why. reflexivity.
Qed.

Lemma auth_failure_witness :
  configured Sample.unauthorized /\
  exit_code Sample.unauthorized = 1 /\
  sent (final Sample.unauthorized) = [auth_post Sample.unauthorized].
Proof.
  assert (Hcfg : configured Sample.unauthorized) by reflexivity.
  split; [exact Hcfg |].
  assert (Hfail :
    (exists msg, http_post Sample.unauthorized (auth_post Sample.unauthorized)
                 = ConnFailed msg) \/
    (exists r, http_post Sample.unauthorized (auth_post Sample.unauthorized)
               = Responded r /\ http_error (status_code r))).
  { right. eexists. split; [reflexivity |]. unfold http_error. simpl. lia. }
  destruct (auth_failure_exits_before_fetch Sample.unauthorized Hcfg Hfail)
    as (H1 & H2 & _).
  split; assumption.
Defined.

(** C6, as stated, fails: the auth endpoint answers with status 300, which
    is not 2xx, and a JSON body; the script takes the token, issues the
    data POST and exits with status 0. *)
Lemma auth_status_300_goes_on :
  (exists r, http_post Sample.multiple_choices (auth_post Sample.multiple_choices)
             = Responded r /\ ~ is_2xx (status_code r)) /\
  exit_code Sample.multiple_choices = 0 /\
  sent (final Sample.multiple_choices) =
    [auth_post Sample.multiple_choices;
     data_post Sample.multiple_choices (JStr "T")].
Proof.
  split.
  - eexists. split; [reflexivity |]. unfold is_2xx. simpl. lia.
  - split; reflexivity.
Qed.

(** C7.  When the auth endpoint answers with a 2xx status and a JSON
    object, [get_bearer_token] returns the value under ["access_token"]
    (so the string ["T"] for the body [{"access_token":"T"}]), and [None]
    when the key is absent; nothing is printed and the POST is the only
    effect. *)
Theorem acquire_token_returns_access_token (W : World) (id secret url : string)
    (r : response) (d : dict) (st : state) :
  http_post W (auth_request id secret url) = Responded r ->
  is_2xx (status_code r) ->
  resp_json r = inr (JObj d) ->
  (forall v, dict_get "access_token" d = Some v ->
             fst (get_bearer_token W id secret url st) = Ret v) /\
  (dict_get "access_token" d = None ->
   fst (get_bearer_token W id secret url st) = Ret JNull) /\
  snd (get_bearer_token W id secret url st) =
    mkState (stdout st) (sent st ++ [auth_request id secret url]) (files st).
Proof.
  intros Hpost Hstatus Hjson.
  rewrite (get_bearer_token_object W id secret url r d st Hpost
             (is_2xx_no_error _ Hstatus) Hjson).
  unfold access_token. simpl.
  repeat split.
  - intros v Hv. rewrite Hv. reflexivity.
  - intros Hv. rewrite Hv. reflexivity.
Qed.

Lemma acquire_token_witness :
  is_2xx 200 /\
  fst (get_bearer_token Sample.granted "ps-client" "s3cret"
         "https://ps.example/oauth/token" initial) = Ret (JStr "T").
Proof.
  assert (H2xx : is_2xx 200) by (unfold is_2xx; lia).
  split; [exact H2xx |].
  exact (proj1 (acquire_token_returns_access_token Sample.granted
                  "ps-client" "s3cret" "https://ps.example/oauth/token"
                  (Sample.answer 200 "OK" Sample.token_T_raw Sample.token_T)
                  [("access_token", JStr "T")] initial
                  eq_refl H2xx eq_refl)
           (JStr "T") eq_refl).
Defined.

(* ===================================================================== *)
(** ** The normalizer *)
(* ===================================================================== *)

(** C2, as stated, fails on a value that is neither a sequence nor a
    mapping: the fourth rule, an unconditional "else", wraps the string
    ["n/a"] into a one-element list, while [save_to_excel] resolves it to
    no record at all. *)
Lemma scalar_is_not_wrapped :
  Policy.resolve Policy.worded (JStr "n/a") = [JStr "n/a"] /\
  resolve_records (JStr "n/a") = [] /\
  resolve_records (JStr "n/a") <> Policy.resolve Policy.worded (JStr "n/a").
Proof.
  split; [reflexivity | split; [reflexivity | discriminate]].
Qed.

Lemma resolve_records_guarded (data : json) :
  resolve_records data = Policy.resolve Policy.guarded data.
Proof.
  unfold Policy.resolve, Policy.guarded.
  destruct data as [| b | z | bits | s | items | d]; try reflexivity.
  simpl. unfold Policy.has_sequence_at, Policy.sequence_at. simpl.
  destruct (dict_get "data" d) as [[| | | | | items1 |] |];
    destruct (dict_get "results" d) as [[| | | | | items2 |] |]; reflexivity.
Qed.

(** C2, as amended.  [save_to_excel] resolves the record list by the
    ordered policy, first match winning: (1) a sequence is used directly;
    (2) else a mapping with key ["data"] whose value is a sequence gives
    that sequence; (3) else a mapping with key ["results"] whose value is a
    sequence gives that sequence; (4) else a mapping is wrapped as a
    one-element sequence; a value that is neither a sequence nor a mapping
    resolves to the empty record list.  On sequences and mappings this is
    the policy as worded, and [{"results":[{"x":1}]}] resolves to the
    one-element list [[{"x":1}]]. *)
Theorem shape_resolution_policy (data : json) :
  resolve_records data = Policy.resolve Policy.guarded data /\
  resolve_records data =
    (if Policy.is_sequence data || Policy.is_mapping data
     then Policy.resolve Policy.worded data
     else []) /\
  resolve_records Sample.results_x1 = [JObj [("x", JInt 1)]].
Proof.
  split; [apply resolve_records_guarded |].
  split; [| reflexivity].
  rewrite resolve_records_guarded.
  unfold Policy.resolve, Policy.guarded, Policy.worded.
  destruct data as [| b | z | bits | s | items | d]; reflexivity.
Qed.

Lemma save_to_excel_empty (W : World) (data : json) (filename : string)
    (st : state) :
  resolve_records data = [] ->
  save_to_excel W data filename st =
    (Ret tt,
     mkState (stdout st ++ [[Lit "No records found to save."]])
       (sent st) (files st)).
Proof.
  intros Hempty. unfold save_to_excel, try_except. rewrite Hempty. reflexivity.
Qed.

(** C8.  When the resolved record list is empty, [save_to_excel] prints
    "No records found to save." and returns normally: no exception, no
    file written, no request sent. *)
Theorem no_records_no_file (W : World) (data : json) (filename : string)
    (st : state) :
  resolve_records data = [] ->
  save_to_excel W data filename st =
    (Ret tt,
     mkState (stdout st ++ [[Lit "No records found to save."]])
       (sent st) (files st)).
Proof.
  apply save_to_excel_empty.
Qed.

Lemma no_records_witness :
  resolve_records Sample.results_empty = [] /\
  save_to_excel Sample.granted Sample.results_empty default_filename initial =
    (Ret tt, mkState [[Lit "No records found to save."]] [] []).
Proof.
  split; [reflexivity |].
  exact (no_records_no_file Sample.granted Sample.results_empty
           default_filename initial eq_refl).
Defined.

Lemma sink_result_total (W : World) (records : list json) (filename : string) :
  exists failure sh, sink_result W records filename failure sh.
Proof.
  destruct (as_dicts records) as [ds |] eqn:Hds.
  - assert (Hdf : forall st, pd_DataFrame W records st = (Ret (frame_of_dicts ds), st)).
    { intros st. unfold pd_DataFrame. rewrite Hds. reflexivity. }
    destruct (excel_write W filename (sheet_of false (frame_of_dicts ds)))
      as [msg |] eqn:Hw.
    + exists (Some msg), None. eapply write_failed; eassumption.
    + exists None, (Some (sheet_of false (frame_of_dicts ds))).
      eapply written; eassumption.
  - destruct (pandas_irregular W records) as [msg | df] eqn:Hp.
    + exists (Some msg), None. apply frame_failed; assumption.
    + assert (Hdf : forall st, pd_DataFrame W records st = (Ret df, st)).
      { intros st. unfold pd_DataFrame. rewrite Hds, Hp. reflexivity. }
      destruct (excel_write W filename (sheet_of false df)) as [msg |] eqn:Hw.
      * exists (Some msg), None. eapply write_failed; eassumption.
      * exists None, (Some (sheet_of false df)). eapply written; eassumption.
Qed.

Lemma save_to_excel_sink (W : World) (data : json) (filename : string)
    (st : state) (failure : option string) (sh : option sheet) :
  resolve_records data <> [] ->
  sink_result W (resolve_records data) filename failure sh ->
  save_to_excel W data filename st = (Ret tt, after_sink st filename failure sh).
Proof.
  intros Hne Hsink. unfold save_to_excel, try_except.
  destruct (resolve_records data) as [| r0 rest] eqn:Hrec; [congruence |].
  cbn [is_empty]. unfold bind.
  destruct Hsink as [msg Hds Hp | df msg Hdf Hw | df Hdf Hw].
  - unfold pd_DataFrame. rewrite Hds, Hp. reflexivity.
  - rewrite Hdf. unfold to_excel. rewrite Hw. reflexivity.
  - rewrite Hdf. unfold to_excel. rewrite Hw. reflexivity.
Qed.

Lemma save_to_excel_returns (W : World) (data : json) (filename : string)
    (st : state) :
  fst (save_to_excel W data filename st) = Ret tt.
Proof.
  destruct (resolve_records data) as [| r0 rest] eqn:Hrec.
  - rewrite (save_to_excel_empty W data filename st Hrec). reflexivity.
  - destruct (sink_result_total W (resolve_records data) filename)
      as (failure & sh & Hsink).
    rewrite (save_to_excel_sink W data filename st failure sh); [reflexivity | | exact Hsink].
    rewrite Hrec. discriminate.
Qed.

(** Outcomes of a sequence whose continuations agree on their outcomes. *)
Lemma fst_bind_ext {A B} (m : M A) (k k' : A -> M B) (st : state) :
  (forall a st', fst (k a st') = fst (k' a st')) ->
  fst (bind m k st) = fst (bind m k' st).
Proof.
  intros H. unfold bind. destruct (m st) as [[a | e] st']; [apply H | reflexivity].
Qed.

(** The outcome of [main] does not depend on pandas or on the writer. *)
Lemma main_outcome_sink (W : World) (irregular : list json -> string + DataFrame)
    (writer : string -> sheet -> option string) (st : state) :
  fst (main (with_sink W irregular writer) st) = fst (main W st).
Proof.
  unfold main.
  apply fst_bind_ext; intros _ st1.
  apply fst_bind_ext; intros _ st2.
  apply (fst_bind_ext
           (get_bearer_token W (getenv_value (CLIENT_ID W))
              (getenv_value (CLIENT_SECRET W)) (getenv_value (AUTH_URL W))));
    intros token st3.
  apply fst_bind_ext; intros _ st4.
  apply fst_bind_ext; intros _ st5.
  apply (fst_bind_ext (config_read W)); intros config st6.
  apply fst_bind_ext; intros _ st7.
  apply fst_bind_ext; intros _ st8.
  destruct (0 <? Z.of_nat (List.length (map sec_name config)) - 1); [reflexivity |].
  unfold fetch_and_save.
  apply (fst_bind_ext (fetch_api_data W (getenv_value (DATA_URL W)) token));
    intros api_data st9.
  apply fst_bind_ext; intros _ st10.
  apply fst_bind_ext; intros items st11.
  apply fst_bind_ext; intros _ st12.
  apply fst_bind_ext; intros my_records st13.
  apply fst_bind_ext; intros _ st14.
  rewrite !save_to_excel_returns. reflexivity.
Qed.

(** C9.  [save_to_excel] never raises: whatever pandas or the spreadsheet
    writer do, it returns normally.  When building the frame or writing the
    file fails, the failure is caught and reported as "Error saving to
    Excel: ..." and no file is recorded.  The exit status of the script is
    the same under every behaviour of pandas and of the writer: a failure
    of this step never changes it. *)
Theorem sink_failure_is_swallowed (W : World) (data : json) (filename : string)
    (st : state) :
  fst (save_to_excel W data filename st) = Ret tt /\
  (forall msg sh,
     resolve_records data <> [] ->
     sink_result W (resolve_records data) filename (Some msg) sh ->
     save_to_excel W data filename st =
       (Ret tt,
        mkState (stdout st ++ [[Lit "Error saving to Excel: "; Lit msg]])
          (sent st) (files st))) /\
  (forall irregular writer,
     exit_code (with_sink W irregular writer) = exit_code W).
Proof.
  split; [apply save_to_excel_returns |].
  split.
  - intros msg sh Hne Hsink.
    rewrite (save_to_excel_sink W data filename st (Some msg) sh Hne Hsink).
    reflexivity.
  - intros irregular writer. unfold exit_code, run.
    rewrite main_outcome_sink. reflexivity.
Qed.

(* ===================================================================== *)
(** ** The data fetch *)
(* ===================================================================== *)

Lemma for_each_headers (hs : list (string * string)) (st : state) :
  for_each hs (fun '(key, value) => print [Lit key; Lit ": "; Lit value]) st =
    (Ret tt, mkState (stdout st ++ map header_line hs) (sent st) (files st)).
Proof.
  revert st. induction hs as [| [key value] hs IH]; intros st.
  - simpl. unfold ret. rewrite app_nil_r. destruct st; reflexivity.
  - cbn [for_each]. unfold bind at 1. cbn [print].
    rewrite IH. cbn [stdout sent files map header_line].
    rewrite <- app_assoc. reflexivity.
Qed.

(** Status 200: the parsed body is returned and nothing is printed. *)
Lemma fetch_api_data_200 (W : World) (url : string) (token body : json)
    (r : response) (st : state) :
  http_post W (data_request url token) = Responded r ->
  status_code r = 200 ->
  resp_json r = inr body ->
  fetch_api_data W url token st =
    (Ret body,
     mkState (stdout st) (sent st ++ [data_request url token]) (files st)).
Proof.
  intros Hpost Hstatus Hjson.
  unfold fetch_api_data, try_except, bind, requests_post, response_json.
  rewrite Hpost, Hstatus, Hjson. reflexivity.
Qed.

(** Another status below 400 or above 599: the diagnostics are printed,
    [raise_for_status] lets the answer through, the body is returned. *)
Lemma fetch_api_data_passes (W : World) (url : string) (token body : json)
    (r : response) (st : state) :
  http_post W (data_request url token) = Responded r ->
  status_code r <> 200 ->
  ~ http_error (status_code r) ->
  resp_json r = inr body ->
  fetch_api_data W url token st =
    (Ret body,
     mkState (stdout st ++ diagnostics r)
       (sent st ++ [data_request url token]) (files st)).
Proof.
  intros Hpost Hne Hok Hjson.
  unfold fetch_api_data, try_except, requests_post, response_json.
  unfold bind at 1. rewrite Hpost.
  apply Z.eqb_neq in Hne. rewrite Hne. cbn [negb].
  unfold bind at 1. unfold bind at 1. cbn [print].
  unfold bind at 1. cbn [print]. unfold bind at 1.
  rewrite for_each_headers. cbn [stdout sent files].
  rewrite (raise_for_status_passes _ _ _ Hok), Hjson.
  unfold diagnostics. rewrite <- !app_assoc. reflexivity.
Qed.

(** A 4xx or 5xx status: the diagnostics and the error are printed, then
    the script exits with status 1. *)
Lemma fetch_api_data_error (W : World) (url : string) (token : json)
    (r : response) (st : state) :
  http_post W (data_request url token) = Responded r ->
  http_error (status_code r) ->
  exists kind,
    fetch_api_data W url token st =
      (Raise (SystemExit 1),
       mkState (stdout st ++ diagnostics r ++
                  [Lit "Error fetching data: " :: http_error_msg kind url r])
         (sent st ++ [data_request url token]) (files st)).
Proof.
  intros Hpost Herr.
  assert (Hne : (status_code r =? 200) = false)
    by (apply Z.eqb_neq; unfold http_error in Herr; lia).
  destruct (raise_for_status_raises url r Herr) as [kind Hraise].
  exists kind.
  unfold fetch_api_data, try_except, requests_post, response_json.
  unfold bind at 1. rewrite Hpost, Hne. cbn [negb].
  unfold bind at 1. unfold bind at 1. cbn [print].
  unfold bind at 1. cbn [print]. unfold bind at 1.
  rewrite for_each_headers. cbn [stdout sent files].
  rewrite Hraise.
  cbn [is_RequestException str_exn]. unfold bind, print, sys_exit, raise.
  cbn [stdout sent files]. unfold diagnostics.
  rewrite <- !app_assoc. reflexivity.
Qed.

(** A dict without the key ['record']: the loop over its items does nothing. *)
Lemma for_each_without_record (d : dict) (st : state) :
  dict_get "record" d = None ->
  for_each d
    (fun '(key, value) => if String.eqb key "record" then iterate value else ret tt)
    st = (Ret tt, st).
Proof.
  revert st. induction d as [| [key value] d IH]; intros st Hget.
  - reflexivity.
  - cbn [dict_get] in Hget. rewrite String.eqb_sym in Hget.
    destruct (String.eqb key "record") eqn:Hkey; [discriminate |].
    cbn [for_each]. unfold bind. rewrite Hkey. cbn [ret].
    apply IH, Hget.
Qed.

Lemma dict_get_None_not_in (k : string) (d : dict) :
  dict_get k d = None <-> ~ In k (dict_keys d).
Proof.
  induction d as [| [k' v] d IH]; simpl.
  - tauto.
  - destruct (String.eqb_spec k k') as [-> | Hne].
    + split; [discriminate | intros H; exfalso; apply H; left; reflexivity].
    + rewrite IH. split.
      * intros H [Heq | Hin]; [congruence | auto].
      * intros H Hin. apply H. right. exact Hin.
Qed.

Lemma run_received (W : World) (token body : json) (secs : list section)
    (r : response) :
  configured W ->
  token_granted W token ->
  single_section W secs ->
  http_post W (data_post W token) = Responded r ->
  status_code r = 200 \/ ~ http_error (status_code r) ->
  resp_json r = inr body ->
  run W = locate_and_save W body (received W secs token r).
Proof.
  intros Hcfg Htok Hsec Hpost Hstatus Hjson.
  unfold run. rewrite (main_arrives_at_fetch W token secs Hcfg Htok Hsec).
  unfold fetch_and_save, bind at 1. unfold data_post in Hpost.
  destruct (Z.eq_dec (status_code r) 200) as [H200 | Hne].
  - rewrite (fetch_api_data_200 W _ token body r _ Hpost H200 Hjson).
    unfold bind at 1. cbn [print]. unfold received. rewrite H200. reflexivity.
  - assert (Hok : ~ http_error (status_code r)) by tauto.
    rewrite (fetch_api_data_passes W _ token body r _ Hpost Hne Hok Hjson).
    unfold bind at 1. cbn [print]. unfold received.
    apply Z.eqb_neq in Hne. rewrite Hne.
    cbn [before_fetch stdout sent files app]. unfold data_post.
    rewrite <- !app_assoc. reflexivity.
Qed.

Lemma locate_without_record (W : World) (d : dict) (st : state) :
  dict_get "record" d = None ->
  locate_and_save W (JObj d) st = (Raise (KeyError "record"), st).
Proof.
  intros Hget. unfold locate_and_save, bind at 1. cbn [method_items ret].
  unfold bind at 1. rewrite (for_each_without_record d st Hget).
  unfold bind at 1. cbn [subscript]. rewrite Hget. reflexivity.
Qed.

(** In a dict (keys without repetition) whose value under ['record'] can be
    iterated, the loop over the items runs to its end. *)
Lemma for_each_with_record (d : dict) (v : json) (st : state) :
  NoDup (dict_keys d) ->
  dict_get "record" d = Some v ->
  iterable v = true ->
  for_each d
    (fun '(key, value) => if String.eqb key "record" then iterate value else ret tt)
    st = (Ret tt, st).
Proof.
  revert st. induction d as [| [key value] d IH]; intros st Hnd Hget Hiter.
  - discriminate.
  - cbn [dict_get] in Hget. rewrite String.eqb_sym in Hget.
    cbn [dict_keys map fst] in Hnd. inversion Hnd as [| k ks Hnotin Hnd']. subst.
    cbn [for_each]. unfold bind.
    destruct (String.eqb_spec key "record") as [-> | Hne].
    + injection Hget as ->. unfold iterate. rewrite Hiter. cbn [ret].
      apply for_each_without_record, dict_get_None_not_in, Hnotin.
    + cbn [ret]. apply IH; assumption.
Qed.

Lemma locate_record (W : World) (d : dict) (v : json) (st : state) :
  NoDup (dict_keys d) ->
  dict_get "record" d = Some v ->
  iterable v = true ->
  locate_and_save W (JObj d) st = save_to_excel W v default_filename (saving st).
Proof.
  intros Hnd Hget Hiter. unfold locate_and_save, bind at 1. cbn [method_items ret].
  unfold bind at 1. rewrite (for_each_with_record d v st Hnd Hget Hiter).
  unfold bind at 1. cbn [subscript]. rewrite Hget. reflexivity.
Qed.

Lemma locate_single_record (W : World) (v : json) (st : state) :
  iterable v = true ->
  locate_and_save W (JObj [("record", v)]) st =
    save_to_excel W v default_filename (saving st).
Proof.
  intros Hiter. apply locate_record; [| reflexivity | exact Hiter].
  repeat constructor. intros [].
Qed.

Lemma run_without_record (W : World) (token : json) (secs : list section)
    (d : dict) :
  configured W ->
  token_granted W token ->
  single_section W secs ->
  fetched W token (JObj d) ->
  dict_get "record" d = None ->
  exists r, run W = (Raise (KeyError "record"), received W secs token r).
Proof.
  intros Hcfg Htok Hsec (r & Hpost & Hstatus & Hjson) Hget.
  exists r.
  rewrite (run_received W token (JObj d) secs r Hcfg Htok Hsec Hpost Hstatus Hjson).
  apply locate_without_record, Hget.
Qed.

(** C10.  When the data endpoint answers with a JSON object that has no
    top-level key ["record"], the subscript [api_data['record']] raises a
    [KeyError] nobody catches: the script ends with status 1 right after
    "Data received.", [save_to_excel] and its shape resolution are never
    reached, and no file is written. *)
Theorem missing_record_key_is_fatal (W : World) (token : json)
    (secs : list section) (d : dict) :
  configured W ->
  token_granted W token ->
  single_section W secs ->
  fetched W token (JObj d) ->
  dict_get "record" d = None ->
  fst (run W) = Raise (KeyError "record") /\
  exit_code W = 1 /\ exit_code W <> 0 /\
  files (final W) = [] /\
  exists r, final W = received W secs token r.
Proof.
  intros Hcfg Htok Hsec Hfetch Hget.
  destruct (run_without_record W token secs d Hcfg Htok Hsec Hfetch Hget)
    as [r Hrun].
  unfold exit_code, final. rewrite Hrun. cbn [fst snd exit_status].
  split; [reflexivity | split; [reflexivity | split; [discriminate | split]]].
  - reflexivity.
  - exists r. reflexivity.
Qed.

(* ===================================================================== *)
(** ** The table *)
(* ===================================================================== *)

Lemma mem_string_In (k : string) (l : list string) :
  mem_string k l = true <-> In k l.
Proof.
  unfold mem_string. rewrite existsb_exists. split.
  - intros (x & Hin & Heq). apply String.eqb_eq in Heq. subst. exact Hin.
  - intros Hin. exists k. split; [exact Hin | apply String.eqb_refl].
Qed.

Lemma add_keys_In (ks seen : list string) (c : string) :
  In c (add_keys seen ks) <-> In c seen \/ In c ks.
Proof.
  unfold add_keys. revert seen.
  induction ks as [| k ks IH]; intros seen; simpl.
  - tauto.
  - rewrite IH. destruct (mem_string k seen) eqn:Hmem.
    + apply mem_string_In in Hmem. split.
      * intros [H | H]; auto.
      * intros [H | [H | H]]; subst; auto.
    + rewrite in_app_iff. simpl. tauto.
Qed.

Lemma add_keys_NoDup (ks seen : list string) :
  NoDup seen -> NoDup (add_keys seen ks).
Proof.
  unfold add_keys. revert seen.
  induction ks as [| k ks IH]; intros seen Hnd; simpl; [exact Hnd |].
  apply IH. destruct (mem_string k seen) eqn:Hmem; [exact Hnd |].
  assert (Hnot : ~ In k seen).
  { intros Hin. apply mem_string_In in Hin. congruence. }
  clear IH Hmem. induction Hnd as [| x l Hx Hl IHl]; simpl.
  - constructor; [intros [] | constructor].
  - constructor.
    + rewrite in_app_iff. simpl. intros [H | [H | []]]; [auto |].
      apply Hnot. left. symmetry. exact H.
    + apply IHl. intros Hin. apply Hnot. right. exact Hin.
Qed.

Lemma fold_keys_In (ds : list dict) (seen : list string) (c : string) :
  In c (fold_left (fun acc d => add_keys acc (dict_keys d)) ds seen) <->
  In c seen \/ exists d, In d ds /\ In c (dict_keys d).
Proof.
  revert seen. induction ds as [| d ds IH]; intros seen; simpl.
  - split; [auto | intros [H | (d & [] & _)]; exact H].
  - rewrite IH, add_keys_In. split.
    + intros [[H | H] | (d' & Hin & Hc)]; auto.
      * right. exists d. auto.
      * right. exists d'. auto.
    + intros [H | (d' & [-> | Hin] & Hc)]; auto.
      right. exists d'. auto.
Qed.

Lemma fold_keys_NoDup (ds : list dict) (seen : list string) :
  NoDup seen ->
  NoDup (fold_left (fun acc d => add_keys acc (dict_keys d)) ds seen).
Proof.
  revert seen. induction ds as [| d ds IH]; intros seen Hnd; simpl; [exact Hnd |].
  apply IH, add_keys_NoDup, Hnd.
Qed.

(** The columns are the union of the keys of the records. *)
Lemma union_keys_In (ds : list dict) (c : string) :
  In c (union_keys ds) <-> exists d, In d ds /\ In c (dict_keys d).
Proof.
  unfold union_keys. rewrite fold_keys_In. simpl. tauto.
Qed.

Lemma union_keys_NoDup (ds : list dict) : NoDup (union_keys ds).
Proof. apply fold_keys_NoDup. constructor. Qed.

Lemma as_dicts_length (records : list json) (ds : list dict) :
  as_dicts records = Some ds -> List.length ds = List.length records.
Proof.
  revert ds. induction records as [| r records IH]; intros ds H; simpl in H.
  - injection H as <-. reflexivity.
  - destruct r; try discriminate.
    destruct (as_dicts records) as [ds' |]; [| discriminate].
    injection H as <-. simpl. f_equal. apply IH. reflexivity.
Qed.

Lemma as_dicts_nth (records : list json) (ds : list dict) (i : nat) (d : dict) :
  as_dicts records = Some ds ->
  nth_error ds i = Some d <-> nth_error records i = Some (JObj d).
Proof.
  revert ds i. induction records as [| r records IH]; intros ds i H; simpl in H.
  - injection H as <-. destruct i; simpl; split; discriminate.
  - destruct r; try discriminate.
    destruct (as_dicts records) as [ds' |] eqn:Hds; [| discriminate].
    injection H as <-. destruct i as [| i]; simpl.
    + split; intros H; injection H as ->; reflexivity.
    + apply IH. reflexivity.
Qed.

Lemma as_dicts_In (records : list json) (ds : list dict) (d : dict) :
  as_dicts records = Some ds -> In d ds <-> In (JObj d) records.
Proof.
  revert ds. induction records as [| r records IH]; intros ds H; simpl in H.
  - injection H as <-. simpl. tauto.
  - destruct r; try discriminate.
    destruct (as_dicts records) as [ds' |] eqn:Hds; [| discriminate].
    injection H as <-. simpl. rewrite (IH ds' eq_refl). split.
    + intros [-> | Hin]; auto.
    + intros [Heq | Hin]; [injection Heq as ->; auto | auto].
Qed.

(** Sample worlds built by [Sample.world] around a granted token. *)
Lemma sample_configured (auth data : net_result) (w : option string) :
  configured (Sample.world auth data w).
Proof. reflexivity. Qed.

Lemma sample_token_granted (data : net_result) (w : option string) (status : Z)
    (why : string) :
  ~ http_error status ->
  token_granted
    (Sample.world (Responded (Sample.answer status why Sample.token_T_raw Sample.token_T))
       data w)
    (JStr "T").
Proof.
  intros H. eexists. exists [("access_token", JStr "T")].
  split; [reflexivity | split; [exact H | split; reflexivity]].
Qed.

Lemma sample_single_section (auth data : net_result) (w : option string) :
  single_section (Sample.world auth data w) Sample.env_file.
Proof. split; [reflexivity | simpl; lia]. Qed.

Lemma sample_fetched_200 (auth : net_result) (w : option string) (raw : string)
    (body token : json) :
  fetched_200 (Sample.world auth (Sample.data_200 raw body) w) token body.
Proof. eexists. split; [reflexivity | split; reflexivity]. Qed.

Lemma status_200_no_error : ~ http_error 200.
Proof. unfold http_error. lia. Qed.

Lemma fetched_200_fetched (W : World) (token body : json) :
  fetched_200 W token body -> fetched W token body.
Proof.
  intros (r & Hpost & Hstatus & Hjson). exists r. auto.
Qed.

(** Records that are all dicts can be handed to pandas as dicts. *)
Lemma all_objects_as_dicts (records : list json) :
  (forall r, In r records -> is_object r = true) ->
  exists ds, as_dicts records = Some ds.
Proof.
  induction records as [| r records IH]; intros Hobj.
  - exists []. reflexivity.
  - destruct IH as [ds Hds]; [intros r' Hr'; apply Hobj; right; exact Hr' |].
    pose proof (Hobj r (or_introl eq_refl)) as Hr.
    destruct r as [| b | z | bits | s | items | d]; try discriminate.
    exists (d :: ds). cbn [as_dicts]. rewrite Hds. reflexivity.
Qed.

(** The sheet written for a list of mappings is the table of that list. *)
Lemma sheet_tabulates (records : list json) (ds : list dict) :
  as_dicts records = Some ds ->
  tabulates records (sheet_of false (frame_of_dicts ds)).
Proof.
  intros Hds. exists (union_keys ds).
  split; [apply union_keys_NoDup |].
  split.
  { intros c. rewrite union_keys_In. split; intros (d & Hd & Hc); exists d;
      (split; [apply (as_dicts_In _ _ d Hds), Hd | exact Hc]). }
  unfold sheet_of, frame_of_dicts. cbn [columns rows].
  split; [cbn [List.length]; rewrite !length_map, (as_dicts_length _ _ Hds);
          reflexivity |].
  split; [cbn [nth_error]; rewrite map_map; reflexivity |].
  intros i d Hi. apply (as_dicts_nth _ _ i d Hds) in Hi.
  cbn [nth_error]. rewrite !nth_error_map, Hi. cbn [option_map].
  unfold row_of. rewrite map_map. reflexivity.
Qed.

(** [save_to_excel] on records that are all mappings, with a writer that
    accepts the sheet. *)
Lemma save_to_excel_writes (W : World) (data : json) (filename : string)
    (st : state) (ds : list dict) :
  resolve_records data <> [] ->
  as_dicts (resolve_records data) = Some ds ->
  excel_write W filename (sheet_of false (frame_of_dicts ds)) = None ->
  save_to_excel W data filename st =
    (Ret tt,
     mkState (stdout st ++ [[Lit "Success! Data saved to "; Lit filename]])
       (sent st)
       ((filename, sheet_of false (frame_of_dicts ds)) :: files st)).
Proof.
  intros Hne Hds Hw.
  rewrite (save_to_excel_sink W data filename st None
             (Some (sheet_of false (frame_of_dicts ds))) Hne); [reflexivity |].
  apply (written W _ filename (frame_of_dicts ds)); [| exact Hw].
  intros st0. unfold pd_DataFrame. rewrite Hds. reflexivity.
Qed.

(** A run whose fetch returns, with status 200, an object holding under
    ['record'] a non-empty list of mappings, with a writer that accepts
    the sheet. *)
Lemma run_writes_sheet (W : World) (token : json) (secs : list section)
    (d : dict) (records : list json) (ds : list dict) :
  configured W ->
  token_granted W token ->
  single_section W secs ->
  fetched_200 W token (JObj d) ->
  NoDup (dict_keys d) ->
  dict_get "record" d = Some (JArr records) ->
  records <> [] ->
  as_dicts records = Some ds ->
  excel_write W default_filename (sheet_of false (frame_of_dicts ds)) = None ->
  exists r,
    run W =
      (Ret tt,
       mkState
         (stdout (saving (received W secs token r))
          ++ [[Lit "Success! Data saved to "; Lit default_filename]])
         [auth_post W; data_post W token]
         [(default_filename, sheet_of false (frame_of_dicts ds))]).
Proof.
  intros Hcfg Htok Hsec (r & Hpost & Hstatus & Hjson) Hnd Hget Hne Hds Hw.
  exists r.
  rewrite (run_received W token (JObj d) secs r Hcfg Htok Hsec Hpost
             (or_introl Hstatus) Hjson).
  rewrite (locate_record W d (JArr records) _ Hnd Hget eq_refl).
  rewrite (save_to_excel_writes W (JArr records) default_filename _ ds Hne Hds Hw).
  reflexivity.
Qed.

(** C3.  For the data response [{"record":[{"a":1},{"a":2,"b":3}]}] with
    status 200 and a writer that accepts the sheet, the script exits 0 and
    writes [api_data.xlsx] with the header row [a, b], then the rows
    [1, blank] and [2, 3].  In general, whenever the records are mappings
    and the writer accepts the sheet, the table that is written has one
    header row of distinct columns, the union of the records' keys, then
    one row per record in record order, each cell holding the record's
    value for the column and a blank where the record lacks it, without
    index column: so for the file [save_to_excel] writes from any value
    that resolves to such records, and so for the file [api_data.xlsx] of
    a run of the script whose fetched object holds the records under
    ["record"]. *)
Theorem records_become_rows (W : World) (token : json) (secs : list section) :
  configured W ->
  token_granted W token ->
  single_section W secs ->
  fetched_200 W token Sample.record_ab ->
  excel_write W default_filename Sample.ab_sheet = None ->
  (exit_code W = 0 /\
   files (final W) = [(default_filename, Sample.ab_sheet)]) /\
  (forall (W' : World) (data : json) (filename : string) (st : state),
     resolve_records data <> [] ->
     (forall r, In r (resolve_records data) -> is_object r = true) ->
     (forall sh, excel_write W' filename sh = None) ->
     exists sh,
       save_to_excel W' data filename st =
         (Ret tt,
          mkState (stdout st ++ [[Lit "Success! Data saved to "; Lit filename]])
            (sent st) ((filename, sh) :: files st)) /\
       tabulates (resolve_records data) sh) /\
  (forall (W' : World) (token' : json) (secs' : list section) (d : dict)
          (records : list json),
     configured W' ->
     token_granted W' token' ->
     single_section W' secs' ->
     fetched_200 W' token' (JObj d) ->
     NoDup (dict_keys d) ->
     dict_get "record" d = Some (JArr records) ->
     records <> [] ->
     (forall r, In r records -> is_object r = true) ->
     (forall sh, excel_write W' default_filename sh = None) ->
     exists sh,
       exit_code W' = 0 /\
       files (final W') = [(default_filename, sh)] /\
       tabulates records sh).
Proof.
  intros Hcfg Htok Hsec Hfetch Hwrite.
  split; [| split].
  - assert (Hnd : NoDup (dict_keys
              [("record", JArr [JObj [("a", JInt 1)];
                                JObj [("a", JInt 2); ("b", JInt 3)]])])).
    { repeat constructor. intros []. }
    destruct (run_writes_sheet W token secs _ _
                [[("a", JInt 1)]; [("a", JInt 2); ("b", JInt 3)]]
                Hcfg Htok Hsec Hfetch Hnd eq_refl ltac:(discriminate) eq_refl Hwrite)
      as [r Hrun].
    unfold exit_code, final. rewrite Hrun. split; reflexivity.
  - intros W' data filename st Hne Hobj Hw.
    destruct (all_objects_as_dicts (resolve_records data) Hobj) as [ds Hds].
    exists (sheet_of false (frame_of_dicts ds)). split.
    + apply (save_to_excel_writes W' data filename st ds Hne Hds (Hw _)).
    + apply sheet_tabulates, Hds.
  - intros W' token' secs' d records Hcfg' Htok' Hsec' Hfetch' Hnd Hget Hne Hobj Hw.
    destruct (all_objects_as_dicts records Hobj) as [ds Hds].
    destruct (run_writes_sheet W' token' secs' d records ds
                Hcfg' Htok' Hsec' Hfetch' Hnd Hget Hne Hds (Hw _)) as [r Hrun].
    exists (sheet_of false (frame_of_dicts ds)).
    unfold exit_code, final. rewrite Hrun.
    split; [reflexivity | split; [reflexivity |]].
    apply sheet_tabulates, Hds.
Qed.

Lemma records_become_rows_witness :
  configured Sample.two_records /\
  excel_write Sample.two_records default_filename Sample.ab_sheet = None /\
  exit_code Sample.two_records = 0 /\
  files (final Sample.two_records) = [(default_filename, Sample.ab_sheet)].
Proof.
  split; [reflexivity | split; [reflexivity |]].
  destruct (records_become_rows Sample.two_records (JStr "T") Sample.env_file
              (sample_configured _ _ _)
              (sample_token_granted _ _ 200 "OK" status_200_no_error)
              (sample_single_section _ _ _)
              (sample_fetched_200 _ _ _ _ _)
              eq_refl) as ((H1 & H2) & _).
  split; assumption.
Defined.

Lemma sink_failure_witness :
  resolve_records (JArr [JObj [("a", JInt 1)]]) <> [] /\
  save_to_excel Sample.disk_full (JArr [JObj [("a", JInt 1)]]) default_filename initial =
    (Ret tt,
     mkState [[Lit "Error saving to Excel: "; Lit "No space left on device"]] [] []) /\
  exit_code (with_sink Sample.disk_full (fun _ => inl "unused") (fun _ _ => None)) =
    exit_code Sample.disk_full.
Proof.
  assert (Hne : resolve_records (JArr [JObj [("a", JInt 1)]]) <> []) by discriminate.
  split; [exact Hne |].
  destruct (sink_failure_is_swallowed Sample.disk_full
              (JArr [JObj [("a", JInt 1)]]) default_filename initial)
    as (_ & Hreport & Hexit).
  split.
  - apply (Hreport "No space left on device" None Hne).
    apply (write_failed Sample.disk_full _ default_filename
             (frame_of_dicts [[("a", JInt 1)]])).
    + intros st. reflexivity.
    + reflexivity.
  - apply Hexit.
Defined.

Lemma missing_record_key_witness :
  dict_get "record" [("results", JArr [])] = None /\
  fst (run Sample.keyless) = Raise (KeyError "record") /\
  exit_code Sample.keyless = 1 /\
  files (final Sample.keyless) = [].
Proof.
  split; [reflexivity |].
  destruct (missing_record_key_is_fatal Sample.keyless (JStr "T") Sample.env_file
              [("results", JArr [])]
              (sample_configured _ _ _)
              (sample_token_granted _ _ 200 "OK" status_200_no_error)
              (sample_single_section _ _ _)
              (fetched_200_fetched _ _ _ (sample_fetched_200 _ _ _ _ _))
              eq_refl) as (H1 & H2 & _ & H3 & _).
  split; [exact H1 | split; [exact H2 | exact H3]].
Defined.

(* ===================================================================== *)
(** ** The pipeline on an empty result *)
(* ===================================================================== *)

(** C1, as stated, fails: with the data response [{"results":[]}] and
    status 200 no file is written, but the script ends with status 1. *)
Lemma results_empty_exits_nonzero :
  fetched_200 Sample.keyless (JStr "T") Sample.results_empty /\
  files (final Sample.keyless) = [] /\
  exit_code Sample.keyless = 1 /\
  exit_code Sample.keyless <> 0.
Proof.
  split; [apply sample_fetched_200 |].
  split; [reflexivity | split; [reflexivity | discriminate]].
Qed.

(** C1, as amended.  For the data response [{"results":[]}] with status
    200 the pipeline produces no output file and the script ends with
    status 1, on the uncaught [KeyError] of the subscript ['record'].  No
    output file together with exit status 0 is what a response gives whose
    value under ["record"] can be iterated and resolves to an empty record
    list, such as [{"record":[]}] or [{"record":{"results":[]}}]. *)
Theorem empty_result_outcome (W : World) (token : json) (secs : list section) :
  configured W ->
  token_granted W token ->
  single_section W secs ->
  (fetched_200 W token Sample.results_empty ->
   files (final W) = [] /\ exit_code W = 1 /\
   fst (run W) = Raise (KeyError "record")) /\
  (forall d v,
     fetched_200 W token (JObj d) ->
     NoDup (dict_keys d) ->
     dict_get "record" d = Some v ->
     iterable v = true ->
     resolve_records v = [] ->
     files (final W) = [] /\ exit_code W = 0 /\
     exists r, final W =
       mkState (stdout (saving (received W secs token r))
                  ++ [[Lit "No records found to save."]])
         [auth_post W; data_post W token] []).
Proof.
  intros Hcfg Htok Hsec. split.
  - intros Hfetch.
    destruct (run_without_record W token secs [("results", JArr [])]
                Hcfg Htok Hsec (fetched_200_fetched _ _ _ Hfetch) eq_refl)
      as [r Hrun].
    unfold exit_code, final. rewrite Hrun. auto.
  - intros d v (r & Hpost & Hstatus & Hjson) Hnd Hget Hiter Hempty.
    unfold exit_code, final.
    rewrite (run_received W token _ secs r Hcfg Htok Hsec Hpost
               (or_introl Hstatus) Hjson).
    rewrite (locate_record W d v _ Hnd Hget Hiter).
    rewrite (save_to_excel_empty W v default_filename _ Hempty).
    cbn [fst snd exit_status files sent saving received].
    split; [reflexivity | split; [reflexivity |]].
    exists r. reflexivity.
Qed.

Lemma empty_result_witness :
  configured Sample.granted /\
  dict_get "record" [("record", JArr [])] = Some (JArr []) /\
  resolve_records (JArr []) = [] /\
  files (final Sample.granted) = [] /\
  exit_code Sample.granted = 0.
Proof.
  split; [reflexivity | split; [reflexivity | split; [reflexivity |]]].
  assert (Hnd : NoDup (dict_keys [("record", JArr [])])).
  { repeat constructor. intros []. }
  destruct (proj2 (empty_result_outcome Sample.granted (JStr "T") Sample.env_file
                     (sample_configured _ _ _)
                     (sample_token_granted _ _ 200 "OK" status_200_no_error)
                     (sample_single_section _ _ _))
              [("record", JArr [])] (JArr [])
              (sample_fetched_200 _ _ _ _ _) Hnd eq_refl eq_refl eq_refl)
    as (H1 & H2 & _).
  split; assumption.
Defined.

(* ===================================================================== *)
(** ** The data fetch on a status other than 200 *)
(* ===================================================================== *)

(** X6.  A 4xx or 5xx answer of the data endpoint: the status, the raw
    body and every header are printed, then "Error fetching data: ..." with
    the message of the HTTP error, and the script exits with status 1
    without writing a file. *)
Lemma data_http_error_exits (W : World) (token : json) (secs : list section)
    (r : response) :
  configured W ->
  token_granted W token ->
  single_section W secs ->
  http_post W (data_post W token) = Responded r ->
  http_error (status_code r) ->
  exit_code W = 1 /\ files (final W) = [] /\
  exists kind,
    stdout (final W) =
      (narrated secs ++ diagnostics r ++
       [Lit "Error fetching data: "
        :: http_error_msg kind (getenv_value (DATA_URL W)) r])%list.
Proof.
  intros Hcfg Htok Hsec Hpost Herr.
  destruct (fetch_api_data_error W _ token r (before_fetch W secs) Hpost Herr)
    as [kind Hrun].
  assert (Hmain : run W =
            (Raise (SystemExit 1),
             mkState
               (narrated secs ++ diagnostics r ++
                [Lit "Error fetching data: "
                 :: http_error_msg kind (getenv_value (DATA_URL W)) r])
               [auth_post W; data_post W token] [])).
  { unfold run. rewrite (main_arrives_at_fetch W token secs Hcfg Htok Hsec).
    unfold fetch_and_save, bind at 1. rewrite Hrun. reflexivity. }
  unfold exit_code, final. rewrite Hmain.
  split; [reflexivity | split; [reflexivity |]].
  exists kind. reflexivity.
Qed.

(** C4 at the status 201.  The data endpoint answers 201 Created with the
    body [{"record":[{"a":1}]}]: [fetch_api_data] prints the status, the
    body and the headers, [raise_for_status] does not raise below 400, and
    the parsed body is returned; the script goes on, writes the spreadsheet
    and exits with status 0. *)
Theorem status_201_is_returned :
  fetch_api_data Sample.created "https://ps.example/export" (JStr "T") initial =
    (Ret Sample.record_a1,
     mkState
       [[Lit "Error: Received status code "; FInt 201];
        [Lit "Response: "; Lit Sample.record_a1_raw];
        [Lit "Content-Type"; Lit ": "; Lit "application/json"]]
       [data_request "https://ps.example/export" (JStr "T")] []) /\
  exit_code Sample.created = 0 /\
  files (final Sample.created) =
    [(default_filename, [[Header (LStr "a")]; [Value (JInt 1)]])].
Proof.
  split; [reflexivity | split; reflexivity].
Qed.

(* ===================================================================== *)
(** ** Token acquisition: every outcome *)
(* ===================================================================== *)

Lemma http_error_dec (status : Z) : {http_error status} + {~ http_error status}.
Proof.
  unfold http_error.
  destruct (Z_le_dec 400 status); destruct (Z_lt_dec status 600);
    (left; lia) || (right; lia).
Qed.

(** An answer whose body is not JSON ends the script with a diagnostic. *)
Lemma get_bearer_token_not_json (W : World) (id secret url : string)
    (r : response) (msg : string) (st : state) :
  http_post W (auth_request id secret url) = Responded r ->
  ~ http_error (status_code r) ->
  resp_json r = inl msg ->
  get_bearer_token W id secret url st =
    (Raise (SystemExit 1),
     printed (posted st (auth_request id secret url))
       [Lit "Error obtaining token: "; Lit msg]).
Proof.
  intros Hpost Hstatus Hjson.
  unfold get_bearer_token, try_except, bind, requests_post.
  rewrite Hpost, (raise_for_status_passes _ _ _ Hstatus).
  unfold response_json. rewrite Hjson. reflexivity.
Qed.

(** A JSON body that is not an object has no [get]: the [AttributeError]
    is not a [RequestException] and leaves the function. *)
Lemma get_bearer_token_not_object (W : World) (id secret url : string)
    (r : response) (v : json) (st : state) :
  http_post W (auth_request id secret url) = Responded r ->
  ~ http_error (status_code r) ->
  resp_json r = inr v ->
  is_object v = false ->
  get_bearer_token W id secret url st =
    (Raise (AttributeError [Lit "object has no attribute 'get'"]),
     posted st (auth_request id secret url)).
Proof.
  intros Hpost Hstatus Hjson Hobj.
  unfold get_bearer_token, try_except, bind, requests_post.
  rewrite Hpost, (raise_for_status_passes _ _ _ Hstatus).
  unfold response_json. rewrite Hjson.
  destruct v; try discriminate; reflexivity.
Qed.

(** The library cannot encode the request: the [UnicodeEncodeError] is not
    a [RequestException] and leaves the function; nothing is printed. *)
Lemma get_bearer_token_unsendable (W : World) (id secret url : string)
    (msg : string) (st : state) :
  http_post W (auth_request id secret url) = Unsendable msg ->
  get_bearer_token W id secret url st =
    (Raise (ValueError [Lit msg]), posted st (auth_request id secret url)).
Proof.
  intros Hpost. unfold get_bearer_token, try_except, bind, requests_post.
  rewrite Hpost. reflexivity.
Qed.

(** The four ways [get_bearer_token] can end. *)
Lemma get_bearer_token_cases (W : World) (id secret url : string) (st : state) :
  (exists r d,
     http_post W (auth_request id secret url) = Responded r /\
     ~ http_error (status_code r) /\
     resp_json r = inr (JObj d) /\
     get_bearer_token W id secret url st =
       (Ret (access_token d), posted st (auth_request id secret url))) \/
  (exists msg,
     get_bearer_token W id secret url st =
       (Raise (AttributeError msg), posted st (auth_request id secret url))) \/
  (exists why,
     get_bearer_token W id secret url st =
       (Raise (SystemExit 1),
        printed (posted st (auth_request id secret url))
          (Lit "Error obtaining token: " :: why))) \/
  (exists msg,
     http_post W (auth_request id secret url) = Unsendable msg /\
     get_bearer_token W id secret url st =
       (Raise (ValueError [Lit msg]), posted st (auth_request id secret url))).
Proof.
  destruct (http_post W (auth_request id secret url)) as [msg | r | msg] eqn:Hpost.
  - right. right. left.
    destruct (get_bearer_token_fails W id secret url st) as [why Hrun].
    { left. exists msg. exact Hpost. }
    exists why. exact Hrun.
  - destruct (http_error_dec (status_code r)) as [Herr | Hok].
    + right. right. left.
      destruct (get_bearer_token_fails W id secret url st) as [why Hrun].
      { right. exists r. split; assumption. }
      exists why. exact Hrun.
    + destruct (resp_json r) as [msg | v] eqn:Hjson.
      * right. right. left. exists [Lit msg].
        apply (get_bearer_token_not_json W id secret url r msg st Hpost Hok Hjson).
      * destruct (is_object v) eqn:Hobj.
        -- left. destruct v as [| b | z | bits | s | items | d]; try discriminate.
           exists r, d. repeat split; try assumption.
           apply (get_bearer_token_object W id secret url r d st Hpost Hok Hjson).
        -- right. left. eexists.
           apply (get_bearer_token_not_object W id secret url r v st Hpost Hok Hjson Hobj).
  - right. right. right. exists msg. split; [reflexivity |].
    apply (get_bearer_token_unsendable W id secret url msg st Hpost).
Qed.

(** X1.  When the auth endpoint answers, without a 4xx or 5xx status, a
    JSON body that is not an object (an array, a string, a number, null),
    [get_bearer_token] raises an [AttributeError] that its handler for
    [RequestException] does not catch: no "Error obtaining token" line is
    printed, and the script ends with status 1 after the one auth POST. *)
Theorem token_body_not_object_escapes (W : World) (r : response) (v : json) :
  configured W ->
  http_post W (auth_post W) = Responded r ->
  ~ http_error (status_code r) ->
  resp_json r = inr v ->
  is_object v = false ->
  run W =
    (Raise (AttributeError [Lit "object has no attribute 'get'"]),
     mkState [[Lit "1. Authenticating..."]] [auth_post W] []) /\
  exit_code W = 1.
Proof.
  intros Hcfg Hpost Hstatus Hjson Hobj.
  assert (Hrun : run W =
            (Raise (AttributeError [Lit "object has no attribute 'get'"]),
             mkState [[Lit "1. Authenticating..."]] [auth_post W] [])).
  { unfold run, main, bind at 1. unfold configured in Hcfg. rewrite Hcfg. simpl.
    step. unfold bind at 1.
    rewrite (get_bearer_token_not_object W _ _ _ r v _ Hpost Hstatus Hjson Hobj).
    reflexivity. }
  split; [exact Hrun |]. unfold exit_code. rewrite Hrun. reflexivity.
Qed.

(** X2.  When the auth endpoint answers, without a 4xx or 5xx status, a
    body that is not JSON, the decoding error is handled like a failed
    request: the script prints "Error obtaining token: ..." with the
    decoder's message and exits with status 1 after the one auth POST. *)
Theorem token_body_not_json_exits (W : World) (r : response) (msg : string) :
  configured W ->
  http_post W (auth_post W) = Responded r ->
  ~ http_error (status_code r) ->
  resp_json r = inl msg ->
  run W =
    (Raise (SystemExit 1),
     mkState [[Lit "1. Authenticating..."];
              [Lit "Error obtaining token: "; Lit msg]]
       [auth_post W] []) /\
  exit_code W = 1.
Proof.
  intros Hcfg Hpost Hstatus Hjson.
  assert (Hrun : run W =
            (Raise (SystemExit 1),
             mkState [[Lit "1. Authenticating..."];
                      [Lit "Error obtaining token: "; Lit msg]]
               [auth_post W] [])).
  { unfold run, main, bind at 1. unfold configured in Hcfg. rewrite Hcfg. simpl.
    step. unfold bind at 1.
    rewrite (get_bearer_token_not_json W _ _ _ r msg _ Hpost Hstatus Hjson).
    reflexivity. }
  split; [exact Hrun |]. unfold exit_code. rewrite Hrun. reflexivity.
Qed.


(* ===================================================================== *)
(** ** The data fetch: every outcome *)
(* ===================================================================== *)

(** The POST itself fails: one line, then [sys.exit(1)]. *)
Lemma fetch_api_data_conn_failed (W : World) (url : string) (token : json)
    (msg : string) (st : state) :
  http_post W (data_request url token) = ConnFailed msg ->
  fetch_api_data W url token st =
    (Raise (SystemExit 1),
     printed (posted st (data_request url token))
       [Lit "Error fetching data: "; Lit msg]).
Proof.
  intros Hpost. unfold fetch_api_data, try_except, bind, requests_post.
  rewrite Hpost. reflexivity.
Qed.

Lemma fetch_api_data_not_json (W : World) (url : string) (token : json)
    (r : response) (msg : string) (st : state) :
  http_post W (data_request url token) = Responded r ->
  ~ http_error (status_code r) ->
  resp_json r = inl msg ->
  fetch_api_data W url token st =
    (Raise (SystemExit 1),
     mkState
       (stdout st ++ (if status_code r =? 200 then [] else diagnostics r)
          ++ [[Lit "Error fetching data: "; Lit msg]])
       (sent st ++ [data_request url token]) (files st)).
Proof.
  intros Hpost Hok Hjson.
  unfold fetch_api_data, try_except, requests_post, response_json.
  unfold bind at 1. rewrite Hpost.
  destruct (status_code r =? 200) eqn:H200; cbn [negb].
  - unfold bind. cbn [ret]. rewrite Hjson. reflexivity.
  - unfold bind at 1. unfold bind at 1. cbn [print].
    unfold bind at 1. cbn [print]. unfold bind at 1.
    rewrite for_each_headers. cbn [stdout sent files].
    rewrite (raise_for_status_passes _ _ _ Hok), Hjson.
    cbn [is_RequestException str_exn]. unfold bind, print, sys_exit, raise.
    cbn [stdout sent files]. unfold diagnostics.
    rewrite <- !app_assoc. reflexivity.
Qed.

(** The library cannot encode the request (a bearer token outside
    Latin-1): the [UnicodeEncodeError] leaves the function unprinted. *)
Lemma fetch_api_data_unsendable (W : World) (url : string) (token : json)
    (msg : string) (st : state) :
  http_post W (data_request url token) = Unsendable msg ->
  fetch_api_data W url token st =
    (Raise (ValueError [Lit msg]), posted st (data_request url token)).
Proof.
  intros Hpost. unfold fetch_api_data, try_except, bind, requests_post.
  rewrite Hpost. reflexivity.
Qed.

(** The three ways [fetch_api_data] can end. *)
Lemma fetch_api_data_cases (W : World) (url : string) (token : json) (st : state) :
  (exists r body,
     http_post W (data_request url token) = Responded r /\
     ~ http_error (status_code r) /\
     resp_json r = inr body /\
     fetch_api_data W url token st =
       (Ret body,
        mkState (stdout st ++ (if status_code r =? 200 then [] else diagnostics r))
          (sent st ++ [data_request url token]) (files st))) \/
  (exists lines,
     (forall msg, http_post W (data_request url token) <> Unsendable msg) /\
     fetch_api_data W url token st =
       (Raise (SystemExit 1),
        mkState (stdout st ++ lines) (sent st ++ [data_request url token])
          (files st))) \/
  (exists msg,
     http_post W (data_request url token) = Unsendable msg /\
     fetch_api_data W url token st =
       (Raise (ValueError [Lit msg]), posted st (data_request url token))).
Proof.
  destruct (http_post W (data_request url token)) as [msg | r | msg] eqn:Hpost.
  - right. left. exists [[Lit "Error fetching data: "; Lit msg]].
    split; [discriminate |].
    apply (fetch_api_data_conn_failed W url token msg st Hpost).
  - destruct (http_error_dec (status_code r)) as [Herr | Hok].
    + right. left.
      destruct (fetch_api_data_error W url token r st Hpost Herr) as [kind Hrun].
      eexists. split; [discriminate | exact Hrun].
    + destruct (resp_json r) as [msg | body] eqn:Hjson.
      * right. left. eexists. split; [discriminate |].
        apply (fetch_api_data_not_json W url token r msg st Hpost Hok Hjson).
      * left. exists r, body. repeat split; try assumption.
        destruct (Z.eq_dec (status_code r) 200) as [H200 | Hne].
        -- rewrite (fetch_api_data_200 W url token body r st Hpost H200 Hjson).
           rewrite H200. cbn [Z.eqb Pos.eqb]. rewrite app_nil_r. reflexivity.
        -- rewrite (fetch_api_data_passes W url token body r st Hpost Hne Hok Hjson).
           apply Z.eqb_neq in Hne. rewrite Hne. reflexivity.
  - right. right. exists msg. split; [reflexivity |].
    apply (fetch_api_data_unsendable W url token msg st Hpost).
Qed.

(** A run that reaches the fetch ends as the fetch ends when it raises. *)
Lemma run_fetch_raises (W : World) (token : json) (secs : list section)
    (e : exn) (st' : state) :
  configured W ->
  token_granted W token ->
  single_section W secs ->
  fetch_api_data W (getenv_value (DATA_URL W)) token (before_fetch W secs)
    = (Raise e, st') ->
  run W = (Raise e, st').
Proof.
  intros Hcfg Htok Hsec Hfetch. unfold run.
  rewrite (main_arrives_at_fetch W token secs Hcfg Htok Hsec).
  unfold fetch_and_save, bind at 1. rewrite Hfetch. reflexivity.
Qed.

(** X4.  When the data POST ends in a network error or a timeout, the
    script prints "Error fetching data: ..." with the error's message,
    without any status, body or header line, and exits with status 1; both
    POSTs have been issued once and no file is written. *)
Theorem data_network_failure_exits (W : World) (token : json)
    (secs : list section) (msg : string) :
  configured W ->
  token_granted W token ->
  single_section W secs ->
  http_post W (data_post W token) = ConnFailed msg ->
  run W =
    (Raise (SystemExit 1),
     mkState (narrated secs ++ [[Lit "Error fetching data: "; Lit msg]])
       [auth_post W; data_post W token] []) /\
  exit_code W = 1.
Proof.
  intros Hcfg Htok Hsec Hpost.
  assert (Hrun : run W =
            (Raise (SystemExit 1),
             mkState (narrated secs ++ [[Lit "Error fetching data: "; Lit msg]])
               [auth_post W; data_post W token] [])).
  { apply (run_fetch_raises W token secs _ _ Hcfg Htok Hsec).
    rewrite (fetch_api_data_conn_failed W _ token msg _ Hpost). reflexivity. }
  split; [exact Hrun |]. unfold exit_code. rewrite Hrun. reflexivity.
Qed.

(** X5.  When the data endpoint answers, without a 4xx or 5xx status, a
    body that is not JSON, the script prints "Error fetching data: ..."
    with the decoder's message (after the diagnostics when the status is
    not 200) and exits with status 1; no file is written. *)
Theorem data_body_not_json_exits (W : World) (token : json)
    (secs : list section) (r : response) (msg : string) :
  configured W ->
  token_granted W token ->
  single_section W secs ->
  http_post W (data_post W token) = Responded r ->
  ~ http_error (status_code r) ->
  resp_json r = inl msg ->
  run W =
    (Raise (SystemExit 1),
     mkState
       (narrated secs ++ (if status_code r =? 200 then [] else diagnostics r)
          ++ [[Lit "Error fetching data: "; Lit msg]])
       [auth_post W; data_post W token] []) /\
  exit_code W = 1.
Proof.
  intros Hcfg Htok Hsec Hpost Hok Hjson.
  assert (Hrun : run W =
            (Raise (SystemExit 1),
             mkState
               (narrated secs ++ (if status_code r =? 200 then [] else diagnostics r)
                  ++ [[Lit "Error fetching data: "; Lit msg]])
               [auth_post W; data_post W token] [])).
  { apply (run_fetch_raises W token secs _ _ Hcfg Htok Hsec).
    rewrite (fetch_api_data_not_json W _ token r msg _ Hpost Hok Hjson).
    reflexivity. }
  split; [exact Hrun |]. unfold exit_code. rewrite Hrun. reflexivity.
Qed.


(* ===================================================================== *)
(** ** From the fetched value to the records *)
(* ===================================================================== *)

(** The first item under ['record'] whose value cannot be iterated stops
    the loop with a [TypeError]. *)
Lemma for_each_record_not_iterable (d : dict) (v : json) (st : state) :
  dict_get "record" d = Some v ->
  iterable v = false ->
  for_each d
    (fun '(key, value) => if String.eqb key "record" then iterate value else ret tt)
    st = (Raise (TypeError [Lit "object is not iterable"]), st).
Proof.
  revert st. induction d as [| [key value] d IH]; intros st Hget Hiter.
  - discriminate.
  - cbn [dict_get] in Hget. rewrite String.eqb_sym in Hget.
    cbn [for_each]. unfold bind.
    destruct (String.eqb key "record") eqn:Hkey.
    + injection Hget as ->. unfold iterate. rewrite Hiter. reflexivity.
    + cbn [ret]. apply IH; assumption.
Qed.

Lemma locate_not_object (W : World) (v : json) (st : state) :
  is_object v = false ->
  locate_and_save W v st =
    (Raise (AttributeError [Lit "object has no attribute 'items'"]), st).
Proof.
  intros Hobj. unfold locate_and_save, bind.
  destruct v; try discriminate; reflexivity.
Qed.

Lemma locate_not_iterable (W : World) (d : dict) (v : json) (st : state) :
  dict_get "record" d = Some v ->
  iterable v = false ->
  locate_and_save W (JObj d) st =
    (Raise (TypeError [Lit "object is not iterable"]), st).
Proof.
  intros Hget Hiter. unfold locate_and_save, bind at 1. cbn [method_items ret].
  unfold bind at 1. rewrite (for_each_record_not_iterable d v st Hget Hiter).
  reflexivity.
Qed.

(** X8.  When the fetched JSON value is not an object (an array, a string,
    a number, null), [api_data.items()] raises an [AttributeError] nobody
    catches: the script ends with status 1 right after "Data received.",
    [save_to_excel] is not called and no file is written, although
    [save_to_excel] would accept a top-level array. *)
Theorem fetched_non_object_is_fatal (W : World) (token : json)
    (secs : list section) (v : json) :
  configured W ->
  token_granted W token ->
  single_section W secs ->
  fetched W token v ->
  is_object v = false ->
  exit_code W = 1 /\
  files (final W) = [] /\
  exists r,
    run W =
      (Raise (AttributeError [Lit "object has no attribute 'items'"]),
       received W secs token r).
Proof.
  intros Hcfg Htok Hsec (r & Hpost & Hstatus & Hjson) Hobj.
  assert (Hrun : run W =
            (Raise (AttributeError [Lit "object has no attribute 'items'"]),
             received W secs token r)).
  { rewrite (run_received W token v secs r Hcfg Htok Hsec Hpost Hstatus Hjson).
    apply locate_not_object, Hobj. }
  unfold exit_code, final. rewrite Hrun.
  split; [reflexivity | split; [reflexivity |]].
  exists r. reflexivity.
Qed.

(** X9.  When the fetched object holds under ["record"] a value that cannot
    be iterated (a number, a boolean, null), the loop [for sub_value in
    value] raises a [TypeError] nobody catches: the script ends with status
    1 right after "Data received.", [save_to_excel] is not called and no
    file is written. *)
Theorem record_not_iterable_is_fatal (W : World) (token : json)
    (secs : list section) (d : dict) (v : json) :
  configured W ->
  token_granted W token ->
  single_section W secs ->
  fetched W token (JObj d) ->
  dict_get "record" d = Some v ->
  iterable v = false ->
  exit_code W = 1 /\
  files (final W) = [] /\
  exists r,
    run W =
      (Raise (TypeError [Lit "object is not iterable"]), received W secs token r).
Proof.
  intros Hcfg Htok Hsec (r & Hpost & Hstatus & Hjson) Hget Hiter.
  assert (Hrun : run W =
            (Raise (TypeError [Lit "object is not iterable"]),
             received W secs token r)).
  { rewrite (run_received W token (JObj d) secs r Hcfg Htok Hsec Hpost Hstatus Hjson).
    apply (locate_not_iterable W d v _ Hget Hiter). }
  unfold exit_code, final. rewrite Hrun.
  split; [reflexivity | split; [reflexivity |]].
  exists r. reflexivity.
Qed.

(** X10.  The whole pipeline on success.  When the fetch returns an object
    (keys without repetition) whose value under ["record"] can be iterated
    and resolves to a non-empty list of mappings, and the writer accepts
    the sheet, the script exits with status 0, has issued the auth POST and
    then the data POST carrying the token, has written exactly the file
    [api_data.xlsx] with the header row and one row per record, and its
    last line is "Success! Data saved to api_data.xlsx". *)
Theorem pipeline_writes_records (W : World) (token : json)
    (secs : list section) (d : dict) (v : json) (ds : list dict) :
  configured W ->
  token_granted W token ->
  single_section W secs ->
  fetched W token (JObj d) ->
  NoDup (dict_keys d) ->
  dict_get "record" d = Some v ->
  iterable v = true ->
  resolve_records v <> [] ->
  as_dicts (resolve_records v) = Some ds ->
  excel_write W default_filename (sheet_of false (frame_of_dicts ds)) = None ->
  exit_code W = 0 /\
  sent (final W) = [auth_post W; data_post W token] /\
  files (final W) = [(default_filename, sheet_of false (frame_of_dicts ds))] /\
  exists r,
    stdout (final W) =
      (stdout (saving (received W secs token r))
       ++ [[Lit "Success! Data saved to "; Lit default_filename]])%list.
Proof.
  intros Hcfg Htok Hsec (r & Hpost & Hstatus & Hjson) Hnd Hget Hiter Hne Hds Hw.
  assert (Hrun : run W =
            (Ret tt,
             after_sink (saving (received W secs token r)) default_filename None
               (Some (sheet_of false (frame_of_dicts ds))))).
  { rewrite (run_received W token (JObj d) secs r Hcfg Htok Hsec Hpost Hstatus Hjson).
    rewrite (locate_record W d v _ Hnd Hget Hiter).
    apply (save_to_excel_sink W v default_filename _ None _ Hne).
    apply (written W _ default_filename (frame_of_dicts ds)); [| exact Hw].
    intros st. unfold pd_DataFrame. rewrite Hds. reflexivity. }
  unfold exit_code, final. rewrite Hrun.
  split; [reflexivity | split; [reflexivity | split; [reflexivity |]]].
  exists r. reflexivity.
Qed.

(* ===================================================================== *)
(** ** The normalizer: effects, single objects, column order *)
(* ===================================================================== *)

(** The ways [save_to_excel] can end, with the state it leaves. *)
Lemma save_to_excel_cases (W : World) (data : json) (filename : string)
    (st : state) :
  (resolve_records data = [] /\
   save_to_excel W data filename st =
     (Ret tt, printed st [Lit "No records found to save."])) \/
  (exists msg,
     resolve_records data <> [] /\
     save_to_excel W data filename st =
       (Ret tt, printed st [Lit "Error saving to Excel: "; Lit msg])) \/
  (exists sh,
     resolve_records data <> [] /\
     excel_write W filename sh = None /\
     save_to_excel W data filename st =
       (Ret tt,
        mkState (stdout st ++ [[Lit "Success! Data saved to "; Lit filename]])
          (sent st) ((filename, sh) :: files st))).
Proof.
  destruct (resolve_records data) as [| r0 rest] eqn:Hrec.
  - left. split; [reflexivity |]. apply (save_to_excel_empty W data filename st Hrec).
  - right.
    assert (Hne : resolve_records data <> []) by (rewrite Hrec; discriminate).
    destruct (sink_result_total W (resolve_records data) filename)
      as (failure & sh & Hsink).
    pose proof (save_to_excel_sink W data filename st failure sh Hne Hsink) as Hrun.
    rewrite Hrec in Hsink.
    destruct Hsink as [msg Hds Hp | df msg Hdf Hw | df Hdf Hw].
    + left. exists msg. split; [discriminate | exact Hrun].
    + left. exists msg. split; [discriminate | exact Hrun].
    + right. exists (sheet_of false df).
      split; [discriminate | split; [exact Hw | exact Hrun]].
Qed.

(** X11.  Whatever it is given and whatever pandas and the writer do,
    [save_to_excel] returns normally, sends no request, and prints exactly
    one line.  It records at most one file, under the name it was given,
    and only when the writer accepted the sheet; its line is then
    "Success! Data saved to <filename>". *)
Theorem save_to_excel_effects (W : World) (data : json) (filename : string)
    (st : state) :
  let res := save_to_excel W data filename st in
  fst res = Ret tt /\
  sent (snd res) = sent st /\
  (exists line, stdout (snd res) = (stdout st ++ [line])%list) /\
  (files (snd res) = files st \/
   exists sh,
     files (snd res) = (filename, sh) :: files st /\
     excel_write W filename sh = None /\
     stdout (snd res) =
       (stdout st ++ [[Lit "Success! Data saved to "; Lit filename]])%list).
Proof.
  cbv zeta.
  destruct (save_to_excel_cases W data filename st)
    as [(_ & Hrun) | [(msg & _ & Hrun) | (sh & _ & Hw & Hrun)]];
    rewrite Hrun; cbn [fst snd printed stdout sent files];
    (split; [reflexivity | split; [reflexivity | split; [eexists; reflexivity |]]]).
  - left. reflexivity.
  - left. reflexivity.
  - right. exists sh. repeat split. exact Hw.
Qed.

Lemma mem_string_false (k : string) (l : list string) :
  ~ In k l -> mem_string k l = false.
Proof.
  intros Hnot. destruct (mem_string k l) eqn:Hmem; [| reflexivity].
  exfalso. apply Hnot, mem_string_In, Hmem.
Qed.

(** Keys that are new and distinct are appended as they come. *)
Lemma add_keys_fresh (ks seen : list string) :
  NoDup (seen ++ ks) -> add_keys seen ks = (seen ++ ks)%list.
Proof.
  unfold add_keys. revert seen.
  induction ks as [| k ks IH]; intros seen Hnd; simpl.
  - rewrite app_nil_r. reflexivity.
  - rewrite mem_string_false.
    + rewrite IH; rewrite <- app_assoc; [reflexivity | exact Hnd].
    + apply NoDup_remove_2 in Hnd. intros Hin. apply Hnd.
      apply in_or_app. left. exact Hin.
Qed.

(** Adding keys keeps what was there, in place. *)
Lemma add_keys_extends (ks seen : list string) :
  exists extra, add_keys seen ks = (seen ++ extra)%list.
Proof.
  unfold add_keys. revert seen.
  induction ks as [| k ks IH]; intros seen; simpl.
  - exists []. rewrite app_nil_r. reflexivity.
  - destruct (mem_string k seen).
    + apply IH.
    + destruct (IH (seen ++ [k])%list) as [extra Hextra].
      exists (k :: extra). rewrite Hextra, <- app_assoc. reflexivity.
Qed.

Lemma fold_keys_extends (ds : list dict) (seen : list string) :
  exists extra,
    fold_left (fun acc d => add_keys acc (dict_keys d)) ds seen
    = (seen ++ extra)%list.
Proof.
  revert seen. induction ds as [| d ds IH]; intros seen; simpl.
  - exists []. rewrite app_nil_r. reflexivity.
  - destruct (add_keys_extends (dict_keys d) seen) as [e1 H1].
    destruct (IH (add_keys seen (dict_keys d))) as [e2 H2].
    exists (e1 ++ e2)%list. rewrite H2, H1, <- app_assoc. reflexivity.
Qed.

(** Under its own keys a dict without repeated keys shows its values. *)
Lemma row_of_own_keys (d : dict) :
  NoDup (dict_keys d) -> row_of (dict_keys d) d = cells_of d.
Proof.
  unfold row_of, cells_of, dict_keys.
  induction d as [| [k v] d IH]; intros Hnd; [reflexivity |].
  cbn [map fst snd dict_get]. rewrite String.eqb_refl. f_equal.
  inversion Hnd as [| k' ks Hnotin Hnd']. subst.
  rewrite <- (IH Hnd'). apply map_ext_in. intros c Hc.
  destruct (String.eqb_spec c k) as [-> | _]; [contradiction | reflexivity].
Qed.

(** Under keys it lacks a dict shows blanks. *)
Lemma row_of_foreign_keys (d : dict) (cols : list string) :
  (forall c, In c cols -> ~ In c (dict_keys d)) ->
  row_of cols d = map (fun _ => None) cols.
Proof.
  intros H. unfold row_of. apply map_ext_in. intros c Hc.
  apply dict_get_None_not_in, H, Hc.
Qed.

Lemma resolve_records_wrap (d : dict) :
  (forall items, dict_get "data" d <> Some (JArr items)) ->
  (forall items, dict_get "results" d <> Some (JArr items)) ->
  resolve_records (JObj d) = [JObj d].
Proof.
  intros Hdata Hresults. cbn [resolve_records].
  destruct (dict_get "data" d) as [[| | | | | items |] |];
    try (exfalso; apply (Hdata items); reflexivity);
    destruct (dict_get "results" d) as [[| | | | | items' |] |];
    try (exfalso; apply (Hresults items'); reflexivity); reflexivity.
Qed.

(** X12.  A single object.  When [save_to_excel] is given a dict (keys
    without repetition) that holds no list under ['data'] and none under
    ['results'], and the writer accepts the sheet, it writes a sheet of
    exactly two rows: the dict's keys as header, in the dict's order, and
    the dict's values beneath them. *)
Theorem single_object_is_one_row (W : World) (d : dict) (filename : string)
    (st : state) :
  NoDup (dict_keys d) ->
  (forall items, dict_get "data" d <> Some (JArr items)) ->
  (forall items, dict_get "results" d <> Some (JArr items)) ->
  excel_write W filename
    [map (fun k => Header (LStr k)) (dict_keys d);
     map (fun kv => Value (snd kv)) d] = None ->
  save_to_excel W (JObj d) filename st =
    (Ret tt,
     mkState (stdout st ++ [[Lit "Success! Data saved to "; Lit filename]])
       (sent st)
       ((filename,
         [map (fun k => Header (LStr k)) (dict_keys d);
          map (fun kv => Value (snd kv)) d]) :: files st)).
Proof.
  intros Hnd Hdata Hresults Hw.
  assert (Hsheet : sheet_of false (frame_of_dicts [d]) =
            [map (fun k => Header (LStr k)) (dict_keys d);
             map (fun kv => Value (snd kv)) d]).
  { unfold sheet_of, frame_of_dicts, union_keys. cbn [fold_left columns rows map].
    rewrite (add_keys_fresh (dict_keys d) []) by exact Hnd. cbn [app].
    rewrite (row_of_own_keys d Hnd). unfold cells_of.
    rewrite !map_map. reflexivity. }
  pose proof (resolve_records_wrap d Hdata Hresults) as Hrec.
  rewrite (save_to_excel_sink W (JObj d) filename st None
             (Some (sheet_of false (frame_of_dicts [d])))).
  - rewrite Hsheet. reflexivity.
  - rewrite Hrec. discriminate.
  - rewrite Hrec. apply (written W _ filename (frame_of_dicts [d])).
    + intros st0. reflexivity.
    + rewrite Hsheet. exact Hw.
Qed.

(** X13.  Column order.  The keys of the first record (without repetition)
    are the first columns of the frame, in the record's own order; the
    columns the later records add follow them, and the first row holds the
    first record's values followed by blanks only. *)
Theorem first_record_leads_columns (d : dict) (ds : list dict) :
  NoDup (dict_keys d) ->
  exists extra,
    columns (frame_of_dicts (d :: ds)) = map LStr (dict_keys d ++ extra) /\
    (forall c, In c extra -> ~ In c (dict_keys d)) /\
    nth_error (rows (frame_of_dicts (d :: ds))) 0 =
      Some (cells_of d ++ map (fun _ => None) extra)%list.
Proof.
  intros Hnd.
  destruct (fold_keys_extends ds (add_keys [] (dict_keys d))) as [extra Hextra].
  rewrite (add_keys_fresh (dict_keys d) []) in Hextra by exact Hnd.
  cbn [app] in Hextra.
  assert (Hcols : union_keys (d :: ds) = (dict_keys d ++ extra)%list).
  { unfold union_keys. cbn [fold_left].
    rewrite (add_keys_fresh (dict_keys d) []) by exact Hnd. exact Hextra. }
  assert (Hfresh : forall c, In c extra -> ~ In c (dict_keys d)).
  { intros c Hc Hin. pose proof (union_keys_NoDup (d :: ds)) as Hall.
    rewrite Hcols in Hall. revert c Hin Hc.
    clear - Hall. induction (dict_keys d) as [| k ks IH]; intros c Hin Hc.
    - destruct Hin.
    - cbn [app] in Hall. inversion Hall as [| k' l Hnotin Hrest]. subst.
      destruct Hin as [-> | Hin].
      + apply Hnotin, in_or_app. right. exact Hc.
      + apply (IH Hrest c Hin Hc). }
  exists extra. split; [| split; [exact Hfresh |]].
  - unfold frame_of_dicts. cbn [columns]. rewrite Hcols. reflexivity.
  - unfold frame_of_dicts. cbn [rows map nth_error]. rewrite Hcols.
    f_equal. unfold row_of at 1. rewrite map_app.
    fold (row_of (dict_keys d) d). fold (row_of extra d).
    rewrite (row_of_own_keys d Hnd), (row_of_foreign_keys d extra Hfresh).
    reflexivity.
Qed.

(** X14.  The inputs on which [save_to_excel] finds no record are exactly:
    a value that is neither a list nor a dict, the empty list, a dict
    whose ['data'] is the empty list, and a dict whose ['data'] is not a
    list and whose ['results'] is the empty list.  In particular an empty
    ['data'] list hides whatever ['results'] holds. *)
Theorem no_records_exactly (data : json) :
  resolve_records data = [] <->
  (Policy.is_sequence data = false /\ is_object data = false) \/
  data = JArr [] \/
  (exists d, data = JObj d /\ dict_get "data" d = Some (JArr [])) \/
  (exists d, data = JObj d /\
             (forall items, dict_get "data" d <> Some (JArr items)) /\
             dict_get "results" d = Some (JArr [])).
Proof.
  destruct data as [| b | z | bits | s | items | d]; cbn [resolve_records];
    try (split; [intros _; left; split; reflexivity | reflexivity]).
  - split.
    + intros ->. right. left. reflexivity.
    + intros [[H _] | [H | [(d & H & _) | (d & H & _)]]];
        try discriminate. injection H as ->. reflexivity.
  - split.
    + intros Hempty.
      destruct (dict_get "data" d) as [vd |] eqn:Hdata.
      * destruct vd as [| | | | | l |];
          try (destruct (dict_get "results" d) as [[| | | | | l' |] |] eqn:Hres;
               try discriminate; subst;
               right; right; right; exists d;
               split; [reflexivity
                      | split; [intros items; rewrite Hdata; discriminate
                               | exact Hres]]).
        subst. right. right. left. exists d. split; [reflexivity | exact Hdata].
      * destruct (dict_get "results" d) as [[| | | | | l' |] |] eqn:Hres;
          try discriminate. subst.
        right. right. right. exists d.
        split; [reflexivity
               | split; [intros items; rewrite Hdata; discriminate | exact Hres]].
    + intros [[_ H] | [H | [(d' & H & Hd) | (d' & H & Hd & Hr)]]];
        try discriminate; injection H as <-.
      * rewrite Hd. reflexivity.
      * rewrite Hr.
        destruct (dict_get "data" d) as [[| | | | | l |] |]; try reflexivity.
        exfalso. apply (Hd l). reflexivity.
Qed.

(* ===================================================================== *)
(** ** Quiet computations *)
(* ===================================================================== *)

Lemma quiet_ret {A} (a : A) : quiet (ret a).
Proof. intros st. cbn. repeat split. discriminate. Qed.

Lemma quiet_print (line : fstring) : quiet (print line).
Proof. intros st. cbn. repeat split. discriminate. Qed.

Lemma quiet_raise {A} (e : exn) : is_Exception e = true -> quiet (@raise A e).
Proof.
  intros He st. cbn. repeat split. intros c Heq. injection Heq as ->. discriminate.
Qed.

Lemma quiet_bind {A B} (m : M A) (k : A -> M B) :
  quiet m -> (forall a, quiet (k a)) -> quiet (bind m k).
Proof.
  intros Hm Hk st. unfold bind. specialize (Hm st).
  destruct (m st) as [[a | e] st']; cbn [fst snd] in Hm;
    destruct Hm as (Hs & Hf & He).
  - destruct (Hk a st') as (Hs' & Hf' & He').
    split; [congruence | split; [congruence | exact He']].
  - cbn [fst snd]. split; [exact Hs | split; [exact Hf |]].
    intros c Heq. apply (He c). injection Heq as ->. reflexivity.
Qed.

Lemma quiet_for_each {A} (l : list A) (body : A -> M unit) :
  (forall x, quiet (body x)) -> quiet (for_each l body).
Proof.
  intros Hbody. induction l as [| x l IH]; cbn [for_each].
  - apply quiet_ret.
  - apply quiet_bind; [apply Hbody | intros _; exact IH].
Qed.

Create HintDb quiet.
#[local] Hint Resolve quiet_ret quiet_print quiet_bind quiet_for_each : quiet.

Lemma quiet_iterate (v : json) : quiet (iterate v).
Proof.
  unfold iterate. destruct (iterable v); [apply quiet_ret |].
  apply quiet_raise. reflexivity.
Qed.

Lemma quiet_method_items (v : json) : quiet (method_items v).
Proof.
  destruct v; cbn [method_items];
    first [apply quiet_ret | apply quiet_raise; reflexivity].
Qed.

Lemma quiet_subscript (v : json) (k : string) : quiet (subscript v k).
Proof.
  destruct v as [| b | z | bits | s | items | d]; cbn [subscript];
    try (apply quiet_raise; reflexivity).
  destruct (dict_get k d); [apply quiet_ret | apply quiet_raise; reflexivity].
Qed.

Lemma quiet_config_items (config : list section) (cat : section_name) :
  quiet (config_items config cat).
Proof.
  induction config as [| s config IH]; cbn [config_items].
  - apply quiet_raise. reflexivity.
  - destruct (section_name_eqb (sec_name s) cat); [| exact IH].
    destruct (sec_items s); [apply quiet_raise; reflexivity | apply quiet_ret].
Qed.

Lemma quiet_category_step (config : list section) (len : Z)
    (entry : Z * section_name) :
  quiet (category_step config len entry).
Proof.
  destruct entry as [number cat]. unfold category_step.
  apply quiet_bind; [apply quiet_print | intros _].
  destruct (section_name_eqb cat default_section); [apply quiet_ret |].
  apply quiet_bind; [apply quiet_config_items | intros items].
  apply quiet_bind.
  - apply quiet_for_each. intros [key val]. apply quiet_print.
  - intros _. destruct (negb (isinstance_str cat)); auto with quiet.
Qed.

Lemma quiet_locate (api_data : json) : quiet (locate api_data).
Proof.
  unfold locate.
  apply quiet_bind; [apply quiet_method_items | intros items].
  apply quiet_bind.
  - apply quiet_for_each. intros [key value].
    destruct (String.eqb key "record"); [apply quiet_iterate | apply quiet_ret].
  - intros _. apply quiet_bind; [apply quiet_subscript | intros my_records].
    auto with quiet.
Qed.

Lemma locate_and_save_split (W : World) (api_data : json) (st : state) :
  locate_and_save W api_data st =
    bind (locate api_data) (fun r => save_to_excel W r default_filename) st.
Proof.
  unfold locate_and_save, locate, bind.
  destruct (method_items api_data st) as [[items | e] st1]; [| reflexivity].
  destruct (for_each items _ st1) as [[[] | e] st2]; [| reflexivity].
  destruct (subscript api_data "record" st2) as [[r | e] st3]; reflexivity.
Qed.

Lemma fetch_and_save_unfold (W : World) (token : json) (st : state) :
  fetch_and_save W token st =
    match fetch_api_data W (getenv_value (DATA_URL W)) token st with
    | (Ret api_data, st') =>
        locate_and_save W api_data (printed st' [Lit "   Data received."])
    | (Raise e, st') => (Raise e, st')
    end.
Proof.
  unfold fetch_and_save, bind at 1.
  destruct (fetch_api_data W (getenv_value (DATA_URL W)) token st)
    as [[api_data | e] st']; reflexivity.
Qed.

(* ===================================================================== *)
(** ** The branch over the sections of the configuration file *)
(* ===================================================================== *)

Lemma main_arrives_at_sections (W : World) (token : json) (secs : list section) :
  configured W ->
  token_granted W token ->
  config_file W = inr secs ->
  (2 <= List.length secs)%nat ->
  main W initial =
    for_each (enumerate (map sec_name secs) 0)
      (category_step secs (Z.of_nat (List.length (map sec_name secs)) - 1))
      (before_fetch W secs).
Proof.
  intros Hcfg (r & d & Hpost & Hstatus & Hjson & ->) Hfile Hlen.
  unfold main, bind at 1. unfold configured in Hcfg. rewrite Hcfg. simpl.
  step. unfold bind at 1.
  rewrite (get_bearer_token_object W _ _ _ r d _ Hpost Hstatus Hjson). simpl.
  step. step.
  unfold bind at 1. unfold config_read. rewrite Hfile. simpl.
  step. step.
  replace (0 <? Z.of_nat (List.length (map sec_name secs)) - 1) with true
    by (symmetry; apply Z.ltb_lt; rewrite length_map; lia).
  reflexivity.
Qed.

Lemma section_name_eqb_refl (n : section_name) : section_name_eqb n n = true.
Proof. destruct n; cbn; [reflexivity | apply String.eqb_refl]. Qed.

Lemma enumerate_In {A} (l : list A) (start n : Z) (x : A) :
  In (n, x) (enumerate l start) -> In x l.
Proof.
  revert start. induction l as [| y l IH]; intros start; cbn [enumerate].
  - intros [].
  - intros [Heq | Hin]; [injection Heq as _ ->; left; reflexivity |].
    right. apply (IH _ Hin).
Qed.

(** A loop whose body returns on every element returns. *)
Lemma for_each_returns {A} (l : list A) (body : A -> M unit) :
  (forall x, In x l -> forall st, exists st', body x st = (Ret tt, st')) ->
  forall st, exists st', for_each l body st = (Ret tt, st').
Proof.
  induction l as [| x l IH]; intros Hbody st; cbn [for_each].
  - exists st. reflexivity.
  - unfold bind. destruct (Hbody x (or_introl eq_refl) st) as [st1 H1].
    rewrite H1. apply IH. intros y Hy. apply Hbody. right. exact Hy.
Qed.

(** The items of a section that is there and can be read are found. *)
Lemma config_items_found (config : list section) (cat : section_name) :
  Forall readable config ->
  In cat (map sec_name config) ->
  exists kv, forall st, config_items config cat st = (Ret kv, st).
Proof.
  induction config as [| s config IH]; intros Hall Hin; [destruct Hin |].
  inversion Hall as [| s' l [kv Hkv] Hrest]. subst. cbn [config_items].
  destruct (section_name_eqb (sec_name s) cat) eqn:Heq.
  - exists kv. intros st. rewrite Hkv. reflexivity.
  - destruct Hin as [<- | Hin].
    + rewrite section_name_eqb_refl in Heq. discriminate.
    + apply (IH Hrest Hin).
Qed.

Lemma category_step_returns (config : list section) (len : Z)
    (number : Z) (cat : section_name) (st : state) :
  Forall readable config ->
  In cat (map sec_name config) ->
  exists st', category_step config len (number, cat) st = (Ret tt, st').
Proof.
  intros Hall Hin. unfold category_step. unfold bind at 1. cbn [print].
  destruct (section_name_eqb cat default_section); [eexists; reflexivity |].
  destruct (config_items_found config cat Hall Hin) as [kv Hkv].
  unfold bind at 1. rewrite Hkv. unfold bind at 1.
  destruct (for_each_returns kv
              (fun '(key, val) =>
                 print [Lit "Installing "; Lit key; Lit " "; Lit val;
                        Lit " for category "; FName cat; Lit "..."])) with (st := printed st [Lit "2."; FInt number; Lit "/"; FInt len;
         Lit " Fetching data for "; FName cat; Lit "..."])
    as [st1 H1].
  { intros [key val] _ st0. eexists. reflexivity. }
  unfold printed in H1. rewrite H1.
  destruct (negb (isinstance_str cat)); eexists; reflexivity.
Qed.

(** X15.  When the configuration file has two sections or more, the script
    only walks through the sections after the token is granted: the auth
    POST is its only request, the data endpoint is never contacted and no
    file is written, whatever the sections hold.  When the items of every
    section can be read, it exits with status 0. *)
Theorem sections_branch_skips_fetch (W : World) (token : json)
    (secs : list section) :
  configured W ->
  token_granted W token ->
  config_file W = inr secs ->
  (2 <= List.length secs)%nat ->
  sent (final W) = [auth_post W] /\
  files (final W) = [] /\
  (forall c, fst (run W) <> Raise (SystemExit c)) /\
  (Forall readable secs -> exit_code W = 0).
Proof.
  intros Hcfg Htok Hfile Hlen.
  unfold exit_code, final, run.
  rewrite (main_arrives_at_sections W token secs Hcfg Htok Hfile Hlen).
  destruct (quiet_for_each (enumerate (map sec_name secs) 0)
              (category_step secs (Z.of_nat (List.length (map sec_name secs)) - 1))
              (quiet_category_step secs _) (before_fetch W secs))
    as (Hs & Hf & He).
  split; [exact Hs | split; [exact Hf | split; [exact He |]]].
  intros Hall.
  destruct (for_each_returns (enumerate (map sec_name secs) 0)
              (category_step secs (Z.of_nat (List.length (map sec_name secs)) - 1)))
    with (st := before_fetch W secs) as [st' Hrun].
  { intros [number cat] Hin st. apply category_step_returns; [exact Hall |].
    apply (enumerate_In _ _ _ _ Hin). }
  rewrite Hrun. reflexivity.
Qed.

(* ===================================================================== *)
(** ** What every run has in common *)
(* ===================================================================== *)

(** The fetch-and-save branch, from a state in which only the auth POST
    has been issued. *)
Lemma fetch_and_save_shape (W : World) (r : response) (d : dict) (st : state) :
  http_post W (auth_post W) = Responded r ->
  ~ http_error (status_code r) ->
  resp_json r = inr (JObj d) ->
  sent st = [auth_post W] ->
  files st = [] ->
  run_shape W (fetch_and_save W (access_token d) st).
Proof.
  intros Hpost Hok Hjson Hsent Hfiles.
  assert (Htwo : forall l, l = (sent st ++ [data_post W (access_token d)])%list ->
            exists r0 d0,
              http_post W (auth_post W) = Responded r0 /\
              ~ http_error (status_code r0) /\
              resp_json r0 = inr (JObj d0) /\
              l = [auth_post W; data_post W (access_token d0)]).
  { intros l H. exists r, d. rewrite H, Hsent. auto. }
  rewrite fetch_and_save_unfold.
  destruct (fetch_api_data_cases W (getenv_value (DATA_URL W)) (access_token d) st)
    as [(r1 & body & _ & _ & _ & Hrun)
       | [(lines & _ & Hrun) | (msg & _ & Hrun)]]; rewrite Hrun.
  - rewrite locate_and_save_split. unfold bind.
    match goal with
    | |- context [locate body ?s] =>
        destruct (quiet_locate body s) as (Hs & Hf & He);
        destruct (locate body s) as [[recs | e] st2]
    end; cbn [fst snd printed sent files stdout] in Hs, Hf, He.
    + destruct (save_to_excel_cases W recs default_filename st2)
        as [(_ & Hsave) | [(msg & _ & Hsave) | (sh & _ & Hw & Hsave)]];
        rewrite Hsave; unfold run_shape; cbn [fst snd printed sent files stdout].
      * split; [discriminate | split; [right; right; apply Htwo, Hs |]].
        left. congruence.
      * split; [discriminate | split; [right; right; apply Htwo, Hs |]].
        left. congruence.
      * split; [discriminate | split; [right; right; apply Htwo, Hs |]].
        right. exists sh. rewrite Hf, Hfiles, Hs, Hsent. auto.
    + unfold run_shape. cbn [fst snd].
      split; [intros c Heq; injection Heq as ->; exfalso; apply (He c eq_refl) |].
      split; [right; right; apply Htwo, Hs | left; congruence].
  - unfold run_shape. cbn [fst snd sent files].
    split; [intros c Heq; injection Heq as <-; reflexivity |].
    split; [right; right; apply Htwo; reflexivity | left; exact Hfiles].
  - unfold run_shape. cbn [fst snd sent files posted].
    split; [discriminate |].
    split; [right; right; apply Htwo; reflexivity | left; exact Hfiles].
Qed.

(** Every run of [main] has the shape [run_shape]. *)
Lemma main_shape (W : World) : run_shape W (run W).
Proof.
  unfold run, main, bind at 1.
  destruct (forallb truthy [CLIENT_ID W; CLIENT_SECRET W; AUTH_URL W; DATA_URL W])
    eqn:Hcfg.
  - simpl. step. unfold bind at 1.
    destruct (get_bearer_token_cases W (getenv_value (CLIENT_ID W))
                (getenv_value (CLIENT_SECRET W)) (getenv_value (AUTH_URL W))
                (mkState [[Lit "1. Authenticating..."]] [] []))
      as [(r & d & Hpost & Hok & Hjson & Hrun)
         | [(msg & Hrun) | [(why & Hrun) | (msg & _ & Hrun)]]];
      rewrite Hrun.
    + cbn [posted stdout sent files app]. step. step.
      unfold bind at 1. unfold config_read.
      destruct (config_file W) as [msg | secs].
      * unfold run_shape. cbn.
        split; [discriminate | split; [right; left; reflexivity | left; reflexivity]].
      * cbn [ret]. step. step.
        destruct (0 <? Z.of_nat (List.length (map sec_name secs)) - 1).
        -- match goal with
           | |- run_shape W (for_each ?l ?b ?s) =>
               destruct (quiet_for_each l b (quiet_category_step secs _) s)
                 as (Hs & Hf & He);
               destruct (for_each l b s) as [o st']
           end.
           cbn [fst snd sent files] in Hs, Hf, He.
           unfold run_shape. cbn [fst snd].
           split; [intros c Heq; exfalso; apply (He c Heq) |].
           split; [right; left; exact Hs | left; exact Hf].
        -- apply (fetch_and_save_shape W r d _ Hpost Hok Hjson); reflexivity.
    + unfold run_shape. cbn.
      split; [discriminate | split; [right; left; reflexivity | left; reflexivity]].
    + unfold run_shape. cbn.
      split; [intros c Heq; injection Heq as <-; reflexivity |].
      split; [right; left; reflexivity | left; reflexivity].
    + unfold run_shape. cbn.
      split; [discriminate | split; [right; left; reflexivity | left; reflexivity]].
  - cbn [negb]. unfold run_shape. cbn.
    split; [intros c Heq; injection Heq as <-; reflexivity |].
    split; [left; reflexivity | left; reflexivity].
Qed.

(** X16.  The exit status of the script is 0 or 1, whatever the settings,
    the endpoints, the configuration file, pandas and the writer do. *)
Theorem exit_code_is_0_or_1 (W : World) : exit_code W = 0 \/ exit_code W = 1.
Proof.
  destruct (main_shape W) as (Hexit & _ & _). unfold exit_code.
  destruct (fst (run W)) as [[] | e]; [left; reflexivity | right].
  destruct e; try reflexivity. cbn. apply Hexit. reflexivity.
Qed.

(** X17.  The script issues at most two requests, each once and in this
    order: the auth POST, then the data POST.  The data POST is issued only
    after the auth endpoint answered a JSON object without a 4xx or 5xx
    status, and the bearer token it carries is the value of that object
    under ["access_token"] ([None] when the key is absent). *)
Theorem requests_are_auth_then_data (W : World) :
  sent (final W) = [] \/
  sent (final W) = [auth_post W] \/
  exists r d,
    http_post W (auth_post W) = Responded r /\
    ~ http_error (status_code r) /\
    resp_json r = inr (JObj d) /\
    sent (final W) = [auth_post W; data_post W (access_token d)].
Proof.
  destruct (main_shape W) as (_ & Hsent & _). exact Hsent.
Qed.

(** X18.  The script writes at most one file, and only under the name
    [api_data.xlsx].  When it has written it, the writer accepted the
    sheet, both POSTs were issued and the exit status is 0; so a run that
    ends with a non-zero status has written no file. *)
Theorem file_only_on_success (W : World) :
  (files (final W) = [] \/
   exists sh,
     files (final W) = [(default_filename, sh)] /\
     excel_write W default_filename sh = None /\
     List.length (sent (final W)) = 2%nat /\
     exit_code W = 0) /\
  (exit_code W <> 0 -> files (final W) = []).
Proof.
  destruct (main_shape W) as (_ & _ & Hfiles). unfold exit_code, final.
  destruct Hfiles as [Hnone | (sh & Hfile & Hret & Hw & Hlen)].
  - split; [left; exact Hnone | intros _; exact Hnone].
  - rewrite Hret. cbn [exit_status]. split.
    + right. exists sh. auto.
    + intros H. exfalso. apply H. reflexivity.
Qed.

(* ===================================================================== *)
(** ** Runs of the sample worlds *)
(* ===================================================================== *)

Lemma token_body_not_object_witness :
  is_object (JArr []) = false /\ exit_code Sample.token_array = 1.
Proof.
  split; [reflexivity |].
  exact (proj2 (token_body_not_object_escapes Sample.token_array
                  (Sample.answer 200 "OK" "[]" (JArr [])) (JArr [])
                  (sample_configured _ _ _) eq_refl status_200_no_error
                  eq_refl eq_refl)).
Defined.

Lemma token_body_not_json_witness :
  configured Sample.token_page /\ exit_code Sample.token_page = 1.
Proof.
  split; [reflexivity |].
  exact (proj2 (token_body_not_json_exits Sample.token_page _ _
                  (sample_configured _ _ _) eq_refl status_200_no_error eq_refl)).
Defined.

Lemma data_network_failure_witness :
  configured Sample.data_timeout /\ exit_code Sample.data_timeout = 1.
Proof.
  split; [reflexivity |].
  exact (proj2 (data_network_failure_exits Sample.data_timeout (JStr "T")
                  Sample.env_file _
                  (sample_configured _ _ _)
                  (sample_token_granted _ _ 200 "OK" status_200_no_error)
                  (sample_single_section _ _ _) eq_refl)).
Defined.

Lemma data_body_not_json_witness :
  configured Sample.data_not_json /\ exit_code Sample.data_not_json = 1.
Proof.
  split; [reflexivity |].
  exact (proj2 (data_body_not_json_exits Sample.data_not_json (JStr "T")
                  Sample.env_file Sample.data_page _
                  (sample_configured _ _ _)
                  (sample_token_granted _ _ 200 "OK" status_200_no_error)
                  (sample_single_section _ _ _) eq_refl status_200_no_error
                  eq_refl)).
Defined.

Lemma data_http_error_witness :
  http_error 503 /\
  exit_code Sample.data_503 = 1 /\ files (final Sample.data_503) = [].
Proof.
  assert (H503 : http_error 503) by (unfold http_error; lia).
  split; [exact H503 |].
  destruct (data_http_error_exits Sample.data_503 (JStr "T") Sample.env_file
              Sample.unavailable
              (sample_configured _ _ _)
              (sample_token_granted _ _ 200 "OK" status_200_no_error)
              (sample_single_section _ _ _) eq_refl H503) as (H1 & H2 & _).
  split; assumption.
Defined.

Lemma fetched_non_object_witness :
  is_object (JArr [JObj [("a", JInt 1)]]) = false /\
  exit_code Sample.top_level_array = 1 /\
  files (final Sample.top_level_array) = [].
Proof.
  split; [reflexivity |].
  destruct (fetched_non_object_is_fatal Sample.top_level_array (JStr "T")
              Sample.env_file (JArr [JObj [("a", JInt 1)]])
              (sample_configured _ _ _)
              (sample_token_granted _ _ 200 "OK" status_200_no_error)
              (sample_single_section _ _ _)
              (fetched_200_fetched _ _ _ (sample_fetched_200 _ _ _ _ _))
              eq_refl) as (H1 & H2 & _).
  split; assumption.
Defined.

Lemma record_not_iterable_witness :
  iterable JNull = false /\
  exit_code Sample.record_null = 1 /\
  files (final Sample.record_null) = [].
Proof.
  split; [reflexivity |].
  destruct (record_not_iterable_is_fatal Sample.record_null (JStr "T")
              Sample.env_file [("record", JNull)] JNull
              (sample_configured _ _ _)
              (sample_token_granted _ _ 200 "OK" status_200_no_error)
              (sample_single_section _ _ _)
              (fetched_200_fetched _ _ _ (sample_fetched_200 _ _ _ _ _))
              eq_refl eq_refl) as (H1 & H2 & _).
  split; assumption.
Defined.

Lemma pipeline_writes_records_witness :
  as_dicts [JObj [("a", JInt 1)]; JObj [("a", JInt 2); ("b", JInt 3)]]
    = Some [[("a", JInt 1)]; [("a", JInt 2); ("b", JInt 3)]] /\
  exit_code Sample.two_records = 0 /\
  files (final Sample.two_records) = [(default_filename, Sample.ab_sheet)].
Proof.
  split; [reflexivity |].
  assert (Hnd : NoDup (dict_keys
            [("record", JArr [JObj [("a", JInt 1)];
                              JObj [("a", JInt 2); ("b", JInt 3)]])])).
  { repeat constructor. intros []. }
  destruct (pipeline_writes_records Sample.two_records (JStr "T") Sample.env_file
              _ (JArr [JObj [("a", JInt 1)]; JObj [("a", JInt 2); ("b", JInt 3)]])
              [[("a", JInt 1)]; [("a", JInt 2); ("b", JInt 3)]]
              (sample_configured _ _ _)
              (sample_token_granted _ _ 200 "OK" status_200_no_error)
              (sample_single_section _ _ _)
              (fetched_200_fetched _ _ _ (sample_fetched_200 _ _ _ _ _))
              Hnd eq_refl eq_refl ltac:(discriminate) eq_refl eq_refl)
    as (H1 & _ & H2 & _).
  split; [exact H1 | exact H2].
Defined.

Lemma single_object_witness :
  NoDup (dict_keys [("a", JInt 1); ("b", JStr "x")]) /\
  save_to_excel Sample.granted (JObj [("a", JInt 1); ("b", JStr "x")])
    default_filename initial =
    (Ret tt,
     mkState [[Lit "Success! Data saved to "; Lit default_filename]] []
       [(default_filename,
         [[Header (LStr "a"); Header (LStr "b")];
          [Value (JInt 1); Value (JStr "x")]])]).
Proof.
  assert (Hnd : NoDup (dict_keys [("a", JInt 1); ("b", JStr "x")])).
  { repeat constructor; simpl; intuition discriminate. }
  split; [exact Hnd |].
  exact (single_object_is_one_row Sample.granted [("a", JInt 1); ("b", JStr "x")]
           default_filename initial Hnd
           ltac:(intros items; discriminate) ltac:(intros items; discriminate)
           eq_refl).
Defined.

Lemma first_record_leads_witness :
  NoDup (dict_keys [("a", JInt 1)]) /\
  exists extra,
    columns (frame_of_dicts [[("a", JInt 1)]; [("a", JInt 2); ("b", JInt 3)]])
      = map LStr (dict_keys [("a", JInt 1)] ++ extra).
Proof.
  assert (Hnd : NoDup (dict_keys [("a", JInt 1)])).
  { repeat constructor. intros []. }
  split; [exact Hnd |].
  destruct (first_record_leads_columns [("a", JInt 1)]
              [[("a", JInt 2); ("b", JInt 3)]] Hnd) as (extra & Hcols & _).
  exists extra. exact Hcols.
Defined.

Lemma sections_branch_witness :
  (2 <= List.length Sample.two_sections)%nat /\
  sent (final Sample.sectioned) = [auth_post Sample.sectioned] /\
  files (final Sample.sectioned) = [] /\
  exit_code Sample.sectioned = 0.
Proof.
  assert (Hlen : (2 <= List.length Sample.two_sections)%nat) by (simpl; lia).
  split; [exact Hlen |].
  assert (Htok : token_granted Sample.sectioned (JStr "T")).
  { eexists. exists [("access_token", JStr "T")].
    split; [reflexivity | split; [exact status_200_no_error | split; reflexivity]]. }
  assert (Hall : Forall readable Sample.two_sections).
  { repeat constructor; eexists; reflexivity. }
  destruct (sections_branch_skips_fetch Sample.sectioned (JStr "T")
              Sample.two_sections eq_refl Htok eq_refl Hlen)
    as (H1 & H2 & _ & H3).
  split; [exact H1 | split; [exact H2 | exact (H3 Hall)]].
Defined.

(* ===================================================================== *)
(** ** Requests the library cannot encode *)
(* ===================================================================== *)

(** X19.  When the library cannot encode the auth request (a client id or
    secret with a character outside Latin-1), the [UnicodeEncodeError] it
    raises is not a [RequestException]: [get_bearer_token] does not handle
    it, no "Error obtaining token" line is printed, [requests.post] is not
    called a second time and the script ends with status 1. *)
Theorem auth_unsendable_escapes (W : World) (msg : string) :
  configured W ->
  http_post W (auth_post W) = Unsendable msg ->
  run W =
    (Raise (ValueError [Lit msg]),
     mkState [[Lit "1. Authenticating..."]] [auth_post W] []) /\
  exit_code W = 1.
Proof.
  intros Hcfg Hpost.
  assert (Hrun : run W =
            (Raise (ValueError [Lit msg]),
             mkState [[Lit "1. Authenticating..."]] [auth_post W] [])).
  { unfold run, main, bind at 1. unfold configured in Hcfg. rewrite Hcfg. simpl.
    step. unfold bind at 1.
    rewrite (get_bearer_token_unsendable W _ _ _ msg _ Hpost). reflexivity. }
  split; [exact Hrun |]. unfold exit_code. rewrite Hrun. reflexivity.
Qed.

Lemma auth_unsendable_witness :
  latin1 "s3cr€t" = false /\
  configured Sample.euro_secret /\
  exit_code Sample.euro_secret = 1.
Proof.
  split; [reflexivity | split; [reflexivity |]].
  exact (proj2 (auth_unsendable_escapes Sample.euro_secret Sample.cannot_encode
                  eq_refl eq_refl)).
Defined.

(** X20.  When the library cannot encode the data request (a bearer token
    with a character outside Latin-1), the [UnicodeEncodeError] it raises
    is not a [RequestException]: [fetch_api_data] does not handle it, no
    "Error fetching data" line is printed, no file is written and the
    script ends with status 1. *)
Theorem data_unsendable_escapes (W : World) (token : json)
    (secs : list section) (msg : string) :
  configured W ->
  token_granted W token ->
  single_section W secs ->
  http_post W (data_post W token) = Unsendable msg ->
  run W =
    (Raise (ValueError [Lit msg]),
     mkState (narrated secs) [auth_post W; data_post W token] []) /\
  exit_code W = 1.
Proof.
  intros Hcfg Htok Hsec Hpost.
  assert (Hrun : run W =
            (Raise (ValueError [Lit msg]),
             mkState (narrated secs) [auth_post W; data_post W token] [])).
  { apply (run_fetch_raises W token secs _ _ Hcfg Htok Hsec).
    rewrite (fetch_api_data_unsendable W _ token msg _ Hpost). reflexivity. }
  split; [exact Hrun |]. unfold exit_code. rewrite Hrun. reflexivity.
Qed.

Lemma data_unsendable_witness :
  latin1 "t€ken" = false /\
  configured Sample.euro_token /\
  exit_code Sample.euro_token = 1.
Proof.
  split; [reflexivity | split; [reflexivity |]].
  assert (Htok : token_granted Sample.euro_token (JStr "t€ken")).
  { eexists. exists [("access_token", JStr "t€ken")].
    split; [reflexivity | split; [exact status_200_no_error | split; reflexivity]]. }
  assert (Hsec : single_section Sample.euro_token Sample.env_file).
  { split; [reflexivity | simpl; lia]. }
  exact (proj2 (data_unsendable_escapes Sample.euro_token (JStr "t€ken")
                  Sample.env_file Sample.cannot_encode eq_refl Htok Hsec eq_refl)).
Defined.
